(** * terraform-provider-awssso: client configuration, hostnames and schemas

    A shallow embedding of the provider's Go code: [config.go] (the
    [Config] and [AWSClient] structs, [PartitionHostname],
    [RegionalHostname], [Config.Client], [GetSupportedEC2Platforms]) and
    [awssso/tags.go] ([tagsSchemaComputed]).

    Go values are modelled as follows.  A [string] is a [string]; a slice
    is a [list] (a nil slice reads as the empty list); a
    [map[string]string] is a [gmap string string] (a nil map reads as the
    empty map, indexing a missing key gives the empty string); a pointer
    that may be nil is an [option]; the [error] interface is [option error]
    with [None] for nil.  Calls into the AWS SDK, aws-sdk-go-base, the
    plugin SDK and the logger are calls through an [Sdk] record.  The
    calls of [Config.Client] to six functions are recorded, in program
    order, in a trace: [awsbase.ValidateRegion],
    [awsbase.GetSessionWithAccountIDAndPartition], [log.Printf],
    [awsbase.ValidateAccountID], [endpoints.PartitionForRegion] and
    [iam.New].  Its other calls ([logging.IsDebugOrHigher],
    [endpoints.DefaultPartitions], [Partition.DNSSuffix], [Session.Copy],
    [fmt.Errorf], [aws.String], [aws.Bool], [aws.StringValue]) are
    evaluated in place and leave no entry. *)

From Stdlib Require Import String Ascii List Bool.
From stdpp Require Import base option list strings gmap.

Set Warnings "-register-all".

Open Scope string_scope.

(** ** Package fmt and Go error values *)

Module Fmt.

(** The error values this program can see: [errors.New] values, the
    wrapping error built by [fmt.Errorf] for a [%w] verb, and errors of a
    type declared by a library, known by the name of their type and by
    what their [Error] method returns. *)
Inductive error : Type :=
| errorString (s : string)
| wrapError (msg : string) (err : error)
| libError (typeName : string) (text : string).

(** The [Error] method. *)
Definition Error (e : error) : string :=
  match e with
  | errorString s => s
  | wrapError msg _ => msg
  | libError _ text => text
  end.

(** [errors.Unwrap]. *)
Definition Unwrap (e : error) : option error :=
  match e with
  | wrapError _ err => Some err
  | _ => None
  end.

Definition typeName (e : error) : string :=
  match e with
  | errorString _ => "*errors.errorString"
  | wrapError _ _ => "*fmt.wrapError"
  | libError t _ => t
  end.

(** An operand of a formatting call. *)
Inductive operand : Type :=
| opString (s : string)
| opError (e : error).

(** The printer state of package fmt ([pp]): the output buffer, whether
    [%w] is allowed ([Errorf] sets it) and the error a [%w] has wrapped. *)
Record pp : Type := mkpp {
  buf : string;
  wrapErrs : bool;
  wrappedErr : option error
}.

Definition newPrinter : pp :=
  {| buf := ""; wrapErrs := false; wrappedErr := None |}.

Definition writeString (p : pp) (s : string) : pp :=
  {| buf := buf p +:+ s; wrapErrs := wrapErrs p; wrappedErr := wrappedErr p |}.

Definition writeByte (p : pp) (c : ascii) : pp :=
  writeString p (String c "").

Definition is_Some_bool {A : Type} (o : option A) : bool :=
  match o with Some _ => true | None => false end.

Definition is_s_or_v (verb : ascii) : bool :=
  Ascii.eqb verb "s" || Ascii.eqb verb "v".

(** [badVerb]: [%!verb(type=value)].  (For an error operand Go prints the
    fields of the value here; the program has no such directive.) *)
Definition badVerb (p : pp) (verb : ascii) (arg : operand) : pp :=
  let shown :=
    match arg with
    | opString s => "string=" +:+ s
    | opError e => typeName e +:+ "=" +:+ Error e
    end in
  writeString p ("%!" +:+ String verb ("(" +:+ shown +:+ ")")).

(** [printArg], for the verbs [s], [v] and [w] (flags, widths and the
    verbs [q], [x], [X] are outside this fragment and read as bad verbs).
    A string operand is printed as it is; an error operand through its
    [Error] method; [%w] is accepted once, under [Errorf], for an error
    operand, which it records, and is a bad verb otherwise. *)
Definition printArg (p : pp) (arg : operand) (verb : ascii) : pp :=
  match arg with
  | opString s => if is_s_or_v verb then writeString p s else badVerb p verb arg
  | opError e =>
      if Ascii.eqb verb "w" then
        if wrapErrs p && negb (is_Some_bool (wrappedErr p)) then
          writeString
            {| buf := buf p; wrapErrs := wrapErrs p; wrappedErr := Some e |}
            (Error e)
        else
          badVerb {| buf := buf p; wrapErrs := false; wrappedErr := None |} verb arg
      else if is_s_or_v verb then writeString p (Error e)
      else badVerb p verb arg
  end.

(** The operands left over when the format is exhausted:
    [%!(EXTRA type=value, ...)]. *)
Fixpoint extraOperands (a : list operand) : string :=
  match a with
  | [] => ""
  | arg :: rest =>
      let shown :=
        match arg with
        | opString s => "string=" +:+ s
        | opError e => typeName e +:+ "=" +:+ Error e
        end in
      match rest with
      | [] => shown
      | _ :: _ => shown +:+ ", " +:+ extraOperands rest
      end
  end.

Definition finish (p : pp) (a : list operand) : pp :=
  match a with
  | [] => p
  | _ :: _ => writeString p ("%!(EXTRA " +:+ extraOperands a +:+ ")")
  end.

(** [doPrintf]: the format is copied to the buffer, each directive
    consuming the next operand. *)
Fixpoint doPrintf (p : pp) (format : string) (a : list operand) : pp :=
  match format with
  | EmptyString => finish p a
  | String c rest =>
      if Ascii.eqb c "%" then
        match rest with
        | EmptyString => finish (writeString p "%!(NOVERB)") a
        | String verb rest' =>
            if Ascii.eqb verb "%" then doPrintf (writeByte p "%") rest' a
            else
              match a with
              | [] =>
                  doPrintf (writeString p ("%!" +:+ String verb "(MISSING)"))
                           rest' []
              | arg :: a' => doPrintf (printArg p arg verb) rest' a'
              end
        end
      else doPrintf (writeByte p c) rest a
  end.

(** [fmt.Sprintf] *)
Definition Sprintf (format : string) (a : list operand) : string :=
  buf (doPrintf newPrinter format a).

(** [fmt.Errorf]: a [%w] directive makes the result a wrapping error. *)
Definition Errorf (format : string) (a : list operand) : error :=
  let p := doPrintf {| buf := ""; wrapErrs := true; wrappedErr := None |} format a in
  match wrappedErr p with
  | None => errorString (buf p)
  | Some err => wrapError (buf p) err
  end.

End Fmt.

Import Fmt.

(** ** Values of the AWS SDK and of aws-sdk-go-base *)

(** Indexing a Go [map[string]string]: the zero value for a missing key. *)
Definition index (m : gmap string string) (k : string) : string :=
  default "" (m !! k).

Module aws.

(** [aws.Config], the fields this program sets.  Every field is a pointer
    in Go. *)
Record Config : Type := mkConfig {
  Endpoint : option string;
  Region : option string;
  S3ForcePathStyle : option bool;
  DisableRestProtocolURICleaning : option bool
}.

Definition set_Endpoint (cfg : Config) (v : option string) : Config :=
  mkConfig v (Region cfg) (S3ForcePathStyle cfg) (DisableRestProtocolURICleaning cfg).

Definition set_Region (cfg : Config) (v : option string) : Config :=
  mkConfig (Endpoint cfg) v (S3ForcePathStyle cfg) (DisableRestProtocolURICleaning cfg).

Definition set_DisableRestProtocolURICleaning (cfg : Config) (v : option bool) : Config :=
  mkConfig (Endpoint cfg) (Region cfg) (S3ForcePathStyle cfg) v.

(** [aws.String], [aws.Bool] and [aws.StringValue]. *)
Definition String (s : string) : option string := Some s.
Definition Bool (b : bool) : option bool := Some b.
Definition StringValue (p : option string) : string := default "" p.

End aws.

Module endpoints.

Definition AwsPartitionID : string := "aws".
Definition AwsCnPartitionID : string := "aws-cn".
Definition AwsUsGovPartitionID : string := "aws-us-gov".
Definition UsWest2RegionID : string := "us-west-2".
Definition UsEast1RegionID : string := "us-east-1".
Definition CnNorthwest1RegionID : string := "cn-northwest-1".
Definition UsGovWest1RegionID : string := "us-gov-west-1".

End endpoints.

Module awsbase.

Record UserAgentProduct : Type := mkUserAgentProduct {
  Name : string;
  Version : string;
  Extra : list string
}.

(** [awsbase.Config], the fields this program sets; a Go [int] is a [Z]. *)
Record Config : Type := mkConfig {
  AccessKey : string;
  AssumeRoleARN : string;
  AssumeRoleDurationSeconds : Z;
  AssumeRoleExternalID : string;
  AssumeRolePolicy : string;
  AssumeRolePolicyARNs : list string;
  AssumeRoleSessionName : string;
  AssumeRoleTags : gmap string string;
  AssumeRoleTransitiveTagKeys : list string;
  CallerDocumentationURL : string;
  CallerName : string;
  CredsFilename : string;
  DebugLogging : bool;
  IamEndpoint : string;
  Insecure : bool;
  MaxRetries : Z;
  Profile : string;
  Region : string;
  SecretKey : string;
  SkipCredsValidation : bool;
  SkipMetadataApiCheck : bool;
  SkipRequestingAccountId : bool;
  StsEndpoint : string;
  Token : string;
  UserAgentProducts : list UserAgentProduct
}.

End awsbase.

(** ** The structs of config.go *)

Section Structs.

(** [*keyvaluetags.DefaultConfig] and [*keyvaluetags.IgnoreConfig]: the
    types of package [internal/keyvaluetags]; [Client] only hands their
    values on. *)
Context {DefaultConfig IgnoreConfig : Type}.

(** [*iam.IAM] of the AWS SDK. *)
Context {IAM : Type}.

Record Config : Type := mkConfig {
  AccessKey : string;
  SecretKey : string;
  CredsFilename : string;
  Profile : string;
  Token : string;
  Region : string;
  MaxRetries : Z;

  AssumeRoleARN : string;
  AssumeRoleDurationSeconds : Z;
  AssumeRoleExternalID : string;
  AssumeRolePolicy : string;
  AssumeRolePolicyARNs : list string;
  AssumeRoleSessionName : string;
  AssumeRoleTags : gmap string string;
  AssumeRoleTransitiveTagKeys : list string;

  AllowedAccountIds : list string;
  ForbiddenAccountIds : list string;

  DefaultTagsConfig : option DefaultConfig;
  Endpoints : gmap string string;
  IgnoreTagsConfig : option IgnoreConfig;
  Insecure : bool;

  SkipCredsValidation : bool;
  SkipGetEC2Platforms : bool;
  SkipRegionValidation : bool;
  SkipRequestingAccountId : bool;
  SkipMetadataApiCheck : bool;
  S3ForcePathStyle : bool;

  terraformVersion : string
}.

(** The fields of [AWSClient] that share a name with a field of [Config]
    carry the prefix [client_]. *)
Record AWSClient : Type := mkAWSClient {
  accountid : string;
  client_DefaultTagsConfig : option DefaultConfig;
  dnsSuffix : string;
  iamconn : IAM;
  client_IgnoreTagsConfig : option IgnoreConfig;
  partition : string;
  region : string;
  client_terraformVersion : string
}.

(** PartitionHostname returns a hostname with the provider domain suffix
    for the partition, e.g. PREFIX.amazonaws.com *)
Definition PartitionHostname (client : AWSClient) (prefix : string) : string :=
  Sprintf "%s.%s" [opString prefix; opString (dnsSuffix client)].

(** RegionalHostname returns a hostname with the provider domain suffix
    for the region and partition, e.g. PREFIX.us-west-2.amazonaws.com *)
Definition RegionalHostname (client : AWSClient) (prefix : string) : string :=
  Sprintf "%s.%s.%s"
    [opString prefix; opString (region client); opString (dnsSuffix client)].

End Structs.

Arguments Config : clear implicits.
Arguments AWSClient : clear implicits.

(** ** The libraries [Config.Client] calls, and the trace of its calls *)

Section Client.

Context {DefaultConfig IgnoreConfig : Type}.

(** [*session.Session], [*iam.IAM] and [endpoints.Partition]. *)
Context {Session IAM Partition : Type}.

(** What the program calls outside itself.  A Go function with several
    results returns a tuple; an [error] result is [None] for nil. *)
Record Sdk : Type := mkSdk {
  (* aws-sdk-go-base *)
  ValidateRegion : string -> option error;
  GetSessionWithAccountIDAndPartition :
    awsbase.Config -> Session * string * string * option error;
  ValidateAccountID : string -> list string -> list string -> option error;
  (* terraform-plugin-sdk, helper/logging *)
  IsDebugOrHigher : bool;
  (* aws-sdk-go, aws/endpoints *)
  DefaultPartitions : list Partition;
  PartitionForRegion : list Partition -> string -> Partition * bool;
  DNSSuffix : Partition -> string;
  (* aws-sdk-go, aws/session and service/iam *)
  Copy : Session -> list aws.Config -> Session;
  iam_New : Session -> list aws.Config -> IAM
}.

(** One entry of the trace: the function called, with its arguments.  The
    trace has an entry for each call of the three functions of
    aws-sdk-go-base, of [log.Printf], of [endpoints.PartitionForRegion]
    and of [iam.New], and for no other call: the getters
    [logging.IsDebugOrHigher], [endpoints.DefaultPartitions] and
    [Partition.DNSSuffix], [Session.Copy], [fmt.Errorf] and the pointer
    helpers of package [aws] are not recorded.  "Recorded calls" below are
    the calls of those six functions. *)
Inductive Call : Type :=
| ValidateRegionCall (region : string)
| GetSessionCall (c : awsbase.Config)
| LogPrintfCall (line : string)
| ValidateAccountIDCall (accountID : string) (allowed forbidden : list string)
| PartitionForRegionCall (regionID : string)
| IamNewCall (p : Session) (cfgs : list aws.Config).

(** A computation that returns a value and the recorded calls it made. *)
Definition Traced (A : Type) : Type := (A * list Call)%type.

#[export] Instance Traced_ret : MRet Traced := fun A a => (a, []).

#[export] Instance Traced_bind : MBind Traced := fun A B f m =>
  let '(a, t) := m in
  let '(b, u) := f a in
  (b, (t ++ u)%list).

Definition call {A : Type} (ev : Call) (result : A) : Traced A := (result, [ev]).

Definition result {A : Type} (m : Traced A) : A := fst m.
Definition trace {A : Type} (m : Traced A) : list Call := snd m.

Variable sdk : Sdk.

Definition awsbase_ValidateRegion (region : string) : Traced (option error) :=
  call (ValidateRegionCall region) (ValidateRegion sdk region).

Definition awsbase_GetSessionWithAccountIDAndPartition (c : awsbase.Config)
  : Traced (Session * string * string * option error) :=
  call (GetSessionCall c) (GetSessionWithAccountIDAndPartition sdk c).

Definition awsbase_ValidateAccountID (accountID : string)
    (allowed forbidden : list string) : Traced (option error) :=
  call (ValidateAccountIDCall accountID allowed forbidden)
       (ValidateAccountID sdk accountID allowed forbidden).

Definition log_Printf (format : string) (a : list operand) : Traced unit :=
  call (LogPrintfCall (Sprintf format a)) tt.

Definition endpoints_PartitionForRegion (ps : list Partition) (id : string)
  : Traced (Partition * bool) :=
  call (PartitionForRegionCall id) (PartitionForRegion sdk ps id).

Definition iam_New_traced (p : Session) (cfgs : list aws.Config) : Traced IAM :=
  call (IamNewCall p cfgs) (iam_New sdk p cfgs).

(** The local [awsbaseConfig] of [Client] (lines 87 to 118), as a function
    of the receiver. *)
Definition awsbaseConfig (c : Config DefaultConfig IgnoreConfig) : awsbase.Config :=
  {| awsbase.AccessKey := AccessKey c;
     awsbase.AssumeRoleARN := AssumeRoleARN c;
     awsbase.AssumeRoleDurationSeconds := AssumeRoleDurationSeconds c;
     awsbase.AssumeRoleExternalID := AssumeRoleExternalID c;
     awsbase.AssumeRolePolicy := AssumeRolePolicy c;
     awsbase.AssumeRolePolicyARNs := AssumeRolePolicyARNs c;
     awsbase.AssumeRoleSessionName := AssumeRoleSessionName c;
     awsbase.AssumeRoleTags := AssumeRoleTags c;
     awsbase.AssumeRoleTransitiveTagKeys := AssumeRoleTransitiveTagKeys c;
     awsbase.CallerDocumentationURL := "https://registry.terraform.io/providers/hashicorp/aws";
     awsbase.CallerName := "Terraform AWS Provider";
     awsbase.CredsFilename := CredsFilename c;
     awsbase.DebugLogging := IsDebugOrHigher sdk;
     awsbase.IamEndpoint := index (Endpoints c) "iam";
     awsbase.Insecure := Insecure c;
     awsbase.MaxRetries := MaxRetries c;
     awsbase.Profile := Profile c;
     awsbase.Region := Region c;
     awsbase.SecretKey := SecretKey c;
     awsbase.SkipCredsValidation := SkipCredsValidation c;
     awsbase.SkipMetadataApiCheck := SkipMetadataApiCheck c;
     awsbase.SkipRequestingAccountId := SkipRequestingAccountId c;
     awsbase.StsEndpoint := index (Endpoints c) "sts";
     awsbase.Token := Token c;
     awsbase.UserAgentProducts :=
       [ awsbase.mkUserAgentProduct "APN" "1.0" [];
         awsbase.mkUserAgentProduct "HashiCorp" "1.0" [];
         awsbase.mkUserAgentProduct "Terraform" (terraformVersion c)
           ["+https://www.terraform.io"] ] |}.

(** The "global" service configurations of lines 149 to 183: built, forced
    to their regions by partition, and not used afterwards. *)
Definition globalServiceConfigs (c : Config DefaultConfig IgnoreConfig)
    (partition : string) : aws.Config * aws.Config * aws.Config * aws.Config :=
  let globalAcceleratorConfig :=
    aws.mkConfig (aws.String (index (Endpoints c) "globalaccelerator")) None None None in
  let route53Config :=
    aws.mkConfig (aws.String (index (Endpoints c) "route53")) None None None in
  let shieldConfig :=
    aws.mkConfig (aws.String (index (Endpoints c) "shield")) None None None in
  let s3Config :=
    aws.mkConfig (aws.String (index (Endpoints c) "s3")) None
                 (aws.Bool (S3ForcePathStyle c)) None in
  let s3Config := aws.set_DisableRestProtocolURICleaning s3Config (aws.Bool true) in
  if String.eqb partition endpoints.AwsPartitionID then
    (aws.set_Region globalAcceleratorConfig (aws.String endpoints.UsWest2RegionID),
     aws.set_Region route53Config (aws.String endpoints.UsEast1RegionID),
     aws.set_Region shieldConfig (aws.String endpoints.UsEast1RegionID),
     s3Config)
  else if String.eqb partition endpoints.AwsCnPartitionID then
    let route53Config :=
      if String.eqb (aws.StringValue (aws.Endpoint route53Config)) ""
      then aws.set_Endpoint route53Config (aws.String "https://api.route53.cn")
      else route53Config in
    (globalAcceleratorConfig,
     aws.set_Region route53Config (aws.String endpoints.CnNorthwest1RegionID),
     shieldConfig, s3Config)
  else if String.eqb partition endpoints.AwsUsGovPartitionID then
    (globalAcceleratorConfig,
     aws.set_Region route53Config (aws.String endpoints.UsGovWest1RegionID),
     shieldConfig, s3Config)
  else (globalAcceleratorConfig, route53Config, shieldConfig, s3Config).

(** Client configures and returns a fully initialized AWSClient.  The Go
    result [(interface{}, error)] is a pair of options, [None] for nil. *)
Definition Client (c : Config DefaultConfig IgnoreConfig)
  : Traced (option (AWSClient DefaultConfig IgnoreConfig IAM) * option error) :=
  (* if !c.SkipRegionValidation { if err := ...; err != nil { return nil, err } } *)
  err ← (if negb (SkipRegionValidation c)
         then awsbase_ValidateRegion (Region c)
         else mret None);
  match err with
  | Some err => mret (None, Some err)
  | None =>
      '(sess, accountID, partition, err) ←
        awsbase_GetSessionWithAccountIDAndPartition (awsbaseConfig c);
      match err with
      | Some err =>
          mret (None,
                Some (Errorf "error configuring Terraform AWS Provider: %w"
                             [opError err]))
      | None =>
          _ ← (if String.eqb accountID ""
               then log_Printf "[WARN] AWS account ID not found for provider. See https://www.terraform.io/docs/providers/aws/index.html#skip_requesting_account_id for implications." []
               else mret tt);
          err ← awsbase_ValidateAccountID accountID (AllowedAccountIds c)
                                          (ForbiddenAccountIds c);
          match err with
          | Some err => mret (None, Some err)
          | None =>
              let dnsSuffix := "amazonaws.com" in
              '(p, ok) ← endpoints_PartitionForRegion (DefaultPartitions sdk) (Region c);
              let dnsSuffix := if (ok : bool) then DNSSuffix sdk p else dnsSuffix in
              conn ← iam_New_traced
                       (Copy sdk sess
                          [aws.mkConfig (aws.String (index (Endpoints c) "iam"))
                                        None None None])
                       [];
              let client :=
                {| accountid := accountID;
                   client_DefaultTagsConfig := DefaultTagsConfig c;
                   dnsSuffix := dnsSuffix;
                   iamconn := conn;
                   client_IgnoreTagsConfig := IgnoreTagsConfig c;
                   partition := partition;
                   region := Region c;
                   client_terraformVersion := terraformVersion c |} in
              let '(globalAcceleratorConfig, route53Config, shieldConfig, s3Config) :=
                globalServiceConfigs c partition in
              mret (Some client, None)
          end
      end
  end.

End Client.

Arguments Sdk : clear implicits.
Arguments Call : clear implicits.
Arguments Traced : clear implicits.

(** ** GetSupportedEC2Platforms *)

Module ec2.

Record AccountAttributeValue : Type := mkAccountAttributeValue {
  AttributeValue : option string
}.

Record AccountAttribute : Type := mkAccountAttribute {
  AttributeName : option string;
  AttributeValues : list (option AccountAttributeValue)
}.

Record DescribeAccountAttributesInput : Type := mkDescribeAccountAttributesInput {
  AttributeNames : list (option string)
}.

Record DescribeAccountAttributesOutput : Type := mkDescribeAccountAttributesOutput {
  AccountAttributes : list (option AccountAttribute)
}.

(** [*ec2.EC2], by the one method the program calls. *)
Record EC2 : Type := mkEC2 {
  DescribeAccountAttributes :
    DescribeAccountAttributesInput ->
    option DescribeAccountAttributesOutput * option error
}.

End ec2.

(** A Go call returns, or panics (here: on a nil pointer dereference). *)
Inductive outcome (A : Type) : Type :=
| Returns (a : A)
| Panics.

Arguments Returns {A} a.
Arguments Panics {A}.

(** The inner loop: [platforms = append(platforms, *v.AttributeValue)]. *)
Fixpoint appendValues (vs : list (option ec2.AccountAttributeValue))
    (platforms : list string) : outcome (list string) :=
  match vs with
  | [] => Returns platforms
  | None :: _ => Panics
  | Some v :: vs' =>
      match ec2.AttributeValue v with
      | None => Panics
      | Some s => appendValues vs' (platforms ++ [s])%list
      end
  end.

(** The outer loop: the values of the first attribute named [attrName]. *)
Fixpoint scanAttributes (attrs : list (option ec2.AccountAttribute))
    (attrName : string) (platforms : list string) : outcome (list string) :=
  match attrs with
  | [] => Returns platforms
  | None :: _ => Panics
  | Some attr :: attrs' =>
      match ec2.AttributeName attr with
      | None => Panics
      | Some name =>
          if String.eqb name attrName
          then appendValues (ec2.AttributeValues attr) platforms (* break *)
          else scanAttributes attrs' attrName platforms
      end
  end.

Definition GetSupportedEC2Platforms (conn : ec2.EC2)
  : outcome (list string * option error) :=
  let attrName := "supported-platforms" in
  let input := ec2.mkDescribeAccountAttributesInput [aws.String attrName] in
  let '(attributes, err) := ec2.DescribeAccountAttributes conn input in
  match err with
  | Some err => Returns ([], Some err)
  | None =>
      match attributes with
      | None => Panics
      | Some attributes =>
          match scanAttributes (ec2.AccountAttributes attributes) attrName [] with
          | Panics => Panics
          | Returns platforms =>
              if Nat.eqb (length platforms) 0
              then Returns ([], Some (Errorf "no EC2 platforms detected" []))
              else Returns (platforms, None)
          end
      end
  end.

(** ** tags.go *)

Module schema.

Inductive ValueType : Type :=
| TypeInvalid | TypeBool | TypeInt | TypeFloat | TypeString
| TypeList | TypeMap | TypeSet | typeObject.

(** [schema.Schema], the fields set here and their neighbours; [Type'] is
    the field [Type], and [Elem] holds the [*Schema] the program stores
    in it. *)
Inductive Schema : Type := mkSchema {
  Type' : ValueType;
  Optional : bool;
  Required : bool;
  Computed : bool;
  ForceNew : bool;
  Elem : option Schema
}.

End schema.

Definition tagsSchemaComputed (_ : unit) : schema.Schema :=
  {| schema.Type' := schema.TypeMap;
     schema.Optional := true;
     schema.Computed := true;
     schema.Elem :=
       Some {| schema.Type' := schema.TypeString;
               schema.Optional := false; schema.Required := false;
               schema.Computed := false; schema.ForceNew := false;
               schema.Elem := None |};
     schema.Required := false;
     schema.ForceNew := false |}.

(** ** The data source *)

Module DataSource.

(** Modelled from the spec: the IAM API behind the data source, whose
    source is not embedded here.  The spec says the data source "wraps an
    AWS IAM API lookup" and "fetches one IAM role ARN created by AWS SSO";
    the lookup takes the permission set name of the README's example and
    gives the role's ARN, or an error. *)
Record IamApi : Type := mkIamApi {
  lookupRole : string -> string * option error
}.

(** Modelled from the spec: a call of the IAM API, as an entry of the
    trace of a read. *)
Inductive IamCall : Type :=
| LookupRoleCall (permission_set_name : string).

(** Modelled from the spec: the attributes of a data source instance
    ([schema.ResourceData]), by name. *)
Definition ResourceData : Type := gmap string string.

(** Modelled from the spec: the read function of the data source, "call
    one API, return one attribute": one call of the IAM lookup with the
    configured [permission_set_name], whose result is stored under [arn];
    an error of the API is handed on. *)
Definition dataSourceAwsSsoRoleRead (iam : IamApi) (d : ResourceData)
  : (ResourceData * option error) * list IamCall :=
  let name := index d "permission_set_name" in
  let '(arn, err) := lookupRole iam name in
  match err with
  | Some err => ((d, Some err), [LookupRoleCall name])
  | None => ((<["arn" := arn]> d, None), [LookupRoleCall name])
  end.

(** Modelled from the spec: a handler of a resource, as the plugin SDK
    stores it in [schema.Resource]. *)
Definition Handler : Type :=
  IamApi -> ResourceData -> (ResourceData * option error) * list IamCall.

(** Modelled from the spec: [schema.Resource], its schema and its four
    handlers, [None] for a handler that is not set. *)
Record Resource : Type := mkResource {
  Schema : list (string * schema.Schema);
  Create : option Handler;
  Read : option Handler;
  Update : option Handler;
  Delete : option Handler
}.

(** Modelled from the spec: the data source, "read-only": of the four
    handlers only [Read] is set.  Its argument and its attribute are those
    of the README's example. *)
Definition dataSourceAwsSsoRole : Resource :=
  {| Schema :=
       [ ("permission_set_name",
          schema.mkSchema schema.TypeString false true false false None);
         ("arn",
          schema.mkSchema schema.TypeString false false true false None) ];
     Create := None;
     Read := Some dataSourceAwsSsoRoleRead;
     Update := None;
     Delete := None |}.

(** Modelled from the spec: [schema.Provider], the resources and the data
    sources it exposes. *)
Record ProviderSchema : Type := mkProviderSchema {
  ResourcesMap : list (string * Resource);
  DataSourcesMap : list (string * Resource)
}.

(** Modelled from the spec: the provider, "exposing a single read-only
    data source", named [awssso_role] in the README. *)
Definition Provider (_ : unit) : ProviderSchema :=
  {| ResourcesMap := [];
     DataSourcesMap := [("awssso_role", dataSourceAwsSsoRole)] |}.

(** Modelled from the spec: the attributes a resource computes, those its
    schema marks [Computed]. *)
Definition computedAttributes (r : Resource) : list string :=
  map fst (filter (fun kv => schema.Computed (snd kv) = true) (Schema r)).

End DataSource.

(** ** What the libraries returned during a run *)

Section Returned.

Context {Session IAM Partition : Type}.
Variable sdk : Sdk Session IAM Partition.

(** The error a recorded call returned, for the calls that return one. *)
Definition returnedError (ev : Call Session) : option error :=
  match ev with
  | ValidateRegionCall region => ValidateRegion sdk region
  | GetSessionCall c => snd (GetSessionWithAccountIDAndPartition sdk c)
  | ValidateAccountIDCall accountID allowed forbidden =>
      ValidateAccountID sdk accountID allowed forbidden
  | _ => None
  end.

(** The errors the libraries returned, in the order of the calls. *)
Definition libraryErrors (tr : list (Call Session)) : list error :=
  omap returnedError tr.

Definition isGetSessionCall (ev : Call Session) : bool :=
  match ev with GetSessionCall _ => true | _ => false end.

Definition isValidateRegionCall (ev : Call Session) : bool :=
  match ev with ValidateRegionCall _ => true | _ => false end.

Context {DefaultConfig IgnoreConfig : Type}.
Implicit Type c : Config DefaultConfig IgnoreConfig.

(** Whether the region check lets the configuration through: it is
    skipped, or the library accepts the region. *)
Definition regionAccepted c : Prop :=
  SkipRegionValidation c = true \/ ValidateRegion sdk (Region c) = None.

(** The recorded calls of [Client] before session creation. *)
Definition regionCalls c : list (Call Session) :=
  if SkipRegionValidation c then [] else [ValidateRegionCall (Region c)].

(** The configuration the session is copied with for the IAM connection
    (line 142). *)
Definition iamEndpointConfig c : aws.Config :=
  aws.mkConfig (aws.String (index (Endpoints c) "iam")) None None None.

End Returned.

(** The input [GetSupportedEC2Platforms] sends. *)
Definition supportedPlatformsInput : ec2.DescribeAccountAttributesInput :=
  ec2.mkDescribeAccountAttributesInput [aws.String "supported-platforms"].

(** ** Vocabulary for further properties *)

Section ConfigUpdates.

Context {DefaultConfig IgnoreConfig : Type}.
Implicit Type c : Config DefaultConfig IgnoreConfig.

(** [c] with the fields [SkipGetEC2Platforms], [S3ForcePathStyle] and
    [Endpoints] replaced. *)
Definition withGlobalServiceFields c (skipGetEC2Platforms s3ForcePathStyle : bool)
    (endpoints : gmap string string) : Config DefaultConfig IgnoreConfig :=
  {| AccessKey := AccessKey c; SecretKey := SecretKey c;
     CredsFilename := CredsFilename c; Profile := Profile c; Token := Token c;
     Region := Region c; MaxRetries := MaxRetries c;
     AssumeRoleARN := AssumeRoleARN c;
     AssumeRoleDurationSeconds := AssumeRoleDurationSeconds c;
     AssumeRoleExternalID := AssumeRoleExternalID c;
     AssumeRolePolicy := AssumeRolePolicy c;
     AssumeRolePolicyARNs := AssumeRolePolicyARNs c;
     AssumeRoleSessionName := AssumeRoleSessionName c;
     AssumeRoleTags := AssumeRoleTags c;
     AssumeRoleTransitiveTagKeys := AssumeRoleTransitiveTagKeys c;
     AllowedAccountIds := AllowedAccountIds c;
     ForbiddenAccountIds := ForbiddenAccountIds c;
     DefaultTagsConfig := DefaultTagsConfig c;
     Endpoints := endpoints;
     IgnoreTagsConfig := IgnoreTagsConfig c; Insecure := Insecure c;
     SkipCredsValidation := SkipCredsValidation c;
     SkipGetEC2Platforms := skipGetEC2Platforms;
     SkipRegionValidation := SkipRegionValidation c;
     SkipRequestingAccountId := SkipRequestingAccountId c;
     SkipMetadataApiCheck := SkipMetadataApiCheck c;
     S3ForcePathStyle := s3ForcePathStyle;
     terraformVersion := terraformVersion c |}.

(** [c] with the field [SkipRegionValidation] replaced. *)
Definition withSkipRegionValidation c (skip : bool)
  : Config DefaultConfig IgnoreConfig :=
  {| AccessKey := AccessKey c; SecretKey := SecretKey c;
     CredsFilename := CredsFilename c; Profile := Profile c; Token := Token c;
     Region := Region c; MaxRetries := MaxRetries c;
     AssumeRoleARN := AssumeRoleARN c;
     AssumeRoleDurationSeconds := AssumeRoleDurationSeconds c;
     AssumeRoleExternalID := AssumeRoleExternalID c;
     AssumeRolePolicy := AssumeRolePolicy c;
     AssumeRolePolicyARNs := AssumeRolePolicyARNs c;
     AssumeRoleSessionName := AssumeRoleSessionName c;
     AssumeRoleTags := AssumeRoleTags c;
     AssumeRoleTransitiveTagKeys := AssumeRoleTransitiveTagKeys c;
     AllowedAccountIds := AllowedAccountIds c;
     ForbiddenAccountIds := ForbiddenAccountIds c;
     DefaultTagsConfig := DefaultTagsConfig c;
     Endpoints := Endpoints c;
     IgnoreTagsConfig := IgnoreTagsConfig c; Insecure := Insecure c;
     SkipCredsValidation := SkipCredsValidation c;
     SkipGetEC2Platforms := SkipGetEC2Platforms c;
     SkipRegionValidation := skip;
     SkipRequestingAccountId := SkipRequestingAccountId c;
     SkipMetadataApiCheck := SkipMetadataApiCheck c;
     S3ForcePathStyle := S3ForcePathStyle c;
     terraformVersion := terraformVersion c |}.

End ConfigUpdates.

(** The line [Client] logs for an empty account ID (line 126). *)
Definition accountIDWarning : string :=
  "[WARN] AWS account ID not found for provider. See https://www.terraform.io/docs/providers/aws/index.html#skip_requesting_account_id for implications.".

(** The function a recorded call went to. *)
Inductive CallKind : Type :=
| KValidateRegion | KGetSession | KLogPrintf | KValidateAccountID
| KPartitionForRegion | KIamNew.

Definition kindOf {Session : Type} (ev : Call Session) : CallKind :=
  match ev with
  | ValidateRegionCall _ => KValidateRegion
  | GetSessionCall _ => KGetSession
  | LogPrintfCall _ => KLogPrintf
  | ValidateAccountIDCall _ _ _ => KValidateAccountID
  | PartitionForRegionCall _ => KPartitionForRegion
  | IamNewCall _ _ => KIamNew
  end.

(** The six recorded functions in the order of [Client]'s text. *)
Definition clientCallOrder : list CallKind :=
  [ KValidateRegion; KGetSession; KLogPrintf; KValidateAccountID;
    KPartitionForRegion; KIamNew ].

(** Pointers of a [DescribeAccountAttributes] response. *)

(** A value whose pointers are not nil. *)
Definition nonNilValue (v : option ec2.AccountAttributeValue) : bool :=
  match v with
  | Some v => is_Some_bool (ec2.AttributeValue v)
  | None => false
  end.

(** An attribute whose pointers, and whose values' pointers, are not nil. *)
Definition nonNilAttribute (a : option ec2.AccountAttribute) : bool :=
  match a with
  | Some attr =>
      is_Some_bool (ec2.AttributeName attr)
      && forallb nonNilValue (ec2.AttributeValues attr)
  | None => false
  end.

(** An attribute that is not nil and has a name other than [name]; its
    values may be anything. *)
Definition namedOtherThan (name : string) (a : option ec2.AccountAttribute) : bool :=
  match a with
  | Some attr =>
      match ec2.AttributeName attr with
      | Some n => negb (String.eqb n name)
      | None => false
      end
  | None => false
  end.

(** The value the API sends for a platform. *)
Definition platformValue (s : string) : option ec2.AccountAttributeValue :=
  Some (ec2.mkAccountAttributeValue (Some s)).

(** The error of line 210. *)
Definition noPlatformsDetected : error := errorString "no EC2 platforms detected".

(** ** An environment to run the code in

    A small stand-in for the libraries: three partitions, credentials that
    are accepted when an access key or a profile is given, one account. *)

Module Example.

Record Partition : Type := mkPartition {
  ID : string;
  suffix : string;
  Regions : list string
}.

(** A session is the list of configurations it was built and copied with;
    an IAM client keeps its session and its own configurations. *)
Definition Session : Type := list aws.Config.

Record IamClient : Type := mkIamClient {
  clientSession : Session;
  clientConfigs : list aws.Config
}.

Definition partitions : list Partition :=
  [ mkPartition "aws" "amazonaws.com" ["us-east-1"; "us-west-2"; "eu-west-1"];
    mkPartition "aws-cn" "amazonaws.com.cn" ["cn-north-1"; "cn-northwest-1"];
    mkPartition "aws-us-gov" "amazonaws.com" ["us-gov-west-1"] ].

Definition hasRegion (id : string) (p : Partition) : bool :=
  existsb (String.eqb id) (Regions p).

Definition validateRegion (region : string) : option error :=
  if existsb (hasRegion region) partitions then None
  else Some (Errorf "Invalid AWS Region: %s" [opString region]).

Definition noCredentials : error :=
  libError "awserr.Error" "NoCredentialProviders: no valid providers in chain".

Definition partitionForRegion (ps : list Partition) (id : string)
  : Partition * bool :=
  match List.find (hasRegion id) ps with
  | Some p => (p, true)
  | None => (mkPartition "" "" [], false)
  end.

Definition getSession (c : awsbase.Config)
  : Session * string * string * option error :=
  if String.eqb (awsbase.AccessKey c) "" && String.eqb (awsbase.Profile c) ""
  then ([], "", "", Some noCredentials)
  else ([aws.mkConfig None (aws.String (awsbase.Region c)) None None],
        "123456789012",
        ID (fst (partitionForRegion partitions (awsbase.Region c))),
        None).

Definition validateAccountID (accountID : string)
    (allowed forbidden : list string) : option error :=
  if existsb (String.eqb accountID) forbidden
  then Some (Errorf "Forbidden AWS Account ID: %s" [opString accountID])
  else
    match allowed with
    | [] => None
    | _ :: _ =>
        if existsb (String.eqb accountID) allowed then None
        else Some (Errorf "AWS Account ID not allowed: %s" [opString accountID])
    end.

Definition sdk : Sdk Session IamClient Partition :=
  {| ValidateRegion := validateRegion;
     GetSessionWithAccountIDAndPartition := getSession;
     ValidateAccountID := validateAccountID;
     IsDebugOrHigher := false;
     DefaultPartitions := partitions;
     PartitionForRegion := partitionForRegion;
     DNSSuffix := suffix;
     Copy := fun s cfgs => (s ++ cfgs)%list;
     iam_New := mkIamClient |}.

(** A configuration with the given region, access key, region-validation
    switch and forbidden accounts; an [iam] endpoint is set, the other
    fields are zero. *)
Definition config (region accessKey : string) (skipRegionValidation : bool)
    (forbidden : list string) : Config unit unit :=
  {| AccessKey := accessKey; SecretKey := "secret"; CredsFilename := "";
     Profile := ""; Token := ""; Region := region; MaxRetries := 25;
     AssumeRoleARN := ""; AssumeRoleDurationSeconds := 0;
     AssumeRoleExternalID := ""; AssumeRolePolicy := "";
     AssumeRolePolicyARNs := []; AssumeRoleSessionName := "";
     AssumeRoleTags := ∅; AssumeRoleTransitiveTagKeys := [];
     AllowedAccountIds := []; ForbiddenAccountIds := forbidden;
     DefaultTagsConfig := None;
     Endpoints := {[ "iam" := "https://iam.example.test" ]};
     IgnoreTagsConfig := None; Insecure := false;
     SkipCredsValidation := false; SkipGetEC2Platforms := false;
     SkipRegionValidation := skipRegionValidation;
     SkipRequestingAccountId := false; SkipMetadataApiCheck := false;
     S3ForcePathStyle := false;
     terraformVersion := "0.14.7" |}.

Definition goodConfig : Config unit unit := config "us-west-2" "AKIAEXAMPLE" false [].
Definition chinaConfig : Config unit unit := config "cn-north-1" "AKIAEXAMPLE" false [].
Definition badRegionConfig : Config unit unit := config "mars-1" "AKIAEXAMPLE" false [].
Definition skipRegionConfig : Config unit unit := config "mars-1" "AKIAEXAMPLE" true [].
Definition noCredentialsConfig : Config unit unit := config "us-west-2" "" false [].
Definition forbiddenConfig : Config unit unit :=
  config "us-west-2" "AKIAEXAMPLE" false ["123456789012"].

(** The client [Client] builds for [goodConfig]. *)
Definition goodClient : AWSClient unit unit IamClient :=
  {| accountid := "123456789012";
     client_DefaultTagsConfig := None;
     dnsSuffix := "amazonaws.com";
     iamconn :=
       mkIamClient
         [ aws.mkConfig None (Some "us-west-2") None None;
           aws.mkConfig (Some "https://iam.example.test") None None None ]
         [];
     client_IgnoreTagsConfig := None;
     partition := "aws";
     region := "us-west-2";
     client_terraformVersion := "0.14.7" |}.

(** EC2 connections: one that reports two platforms, one whose account has
    no [supported-platforms] attribute, one whose request fails. *)
Definition platformsConn : ec2.EC2 :=
  ec2.mkEC2 (fun _ =>
    (Some (ec2.mkDescribeAccountAttributesOutput
       [ Some (ec2.mkAccountAttribute (Some "default-vpc")
                 [Some (ec2.mkAccountAttributeValue (Some "vpc-1"))]);
         Some (ec2.mkAccountAttribute (Some "supported-platforms")
                 [Some (ec2.mkAccountAttributeValue (Some "EC2"));
                  Some (ec2.mkAccountAttributeValue (Some "VPC"))]) ]),
     None)).

Definition noPlatformsConn : ec2.EC2 :=
  ec2.mkEC2 (fun _ =>
    (Some (ec2.mkDescribeAccountAttributesOutput
       [ Some (ec2.mkAccountAttribute (Some "default-vpc")
                 [Some (ec2.mkAccountAttributeValue (Some "vpc-1"))]) ]),
     None)).

Definition unauthorized : error :=
  libError "awserr.RequestFailure" "UnauthorizedOperation: not authorized".

Definition failingConn : ec2.EC2 :=
  ec2.mkEC2 (fun _ => (None, Some unauthorized)).

(** An IAM API for the data source: the role of a permission set. *)
Definition iamApi : DataSource.IamApi :=
  DataSource.mkIamApi (fun name =>
    ("arn:aws:iam::123456789012:role/aws-reserved/sso.amazonaws.com/AWSReservedSSO_"
       +:+ name, None)).

(** A second environment: the account ID is not requested, so the session
    comes back with an empty one. *)
Definition getSessionNoAccount (c : awsbase.Config)
  : Session * string * string * option error :=
  ([aws.mkConfig None (aws.String (awsbase.Region c)) None None],
   "", ID (fst (partitionForRegion partitions (awsbase.Region c))), None).

Definition sdkNoAccount : Sdk Session IamClient Partition :=
  {| ValidateRegion := validateRegion;
     GetSessionWithAccountIDAndPartition := getSessionNoAccount;
     ValidateAccountID := validateAccountID;
     IsDebugOrHigher := true;
     DefaultPartitions := partitions;
     PartitionForRegion := partitionForRegion;
     DNSSuffix := suffix;
     Copy := fun s cfgs => (s ++ cfgs)%list;
     iam_New := mkIamClient |}.

(** An EC2 connection whose response names the platforms twice, with a
    nil pointer after the first. *)
Definition duplicateConn : ec2.EC2 :=
  ec2.mkEC2 (fun _ =>
    (Some (ec2.mkDescribeAccountAttributesOutput
       [ Some (ec2.mkAccountAttribute (Some "max-instances") [None]);
         Some (ec2.mkAccountAttribute (Some "supported-platforms")
                 [platformValue "VPC"]);
         None;
         Some (ec2.mkAccountAttribute (Some "supported-platforms")
                 [platformValue "EC2"]) ]),
     None)).

(** An EC2 connection whose first [supported-platforms] attribute is
    empty. *)
Definition emptyFirstConn : ec2.EC2 :=
  ec2.mkEC2 (fun _ =>
    (Some (ec2.mkDescribeAccountAttributesOutput
       [ Some (ec2.mkAccountAttribute (Some "supported-platforms") []);
         Some (ec2.mkAccountAttribute (Some "supported-platforms")
                 [platformValue "EC2"]) ]),
     None)).

End Example.

(** * Properties *)

(** ** Strings and formatting *)

Lemma append_assoc (a b c : string) : (a +:+ b) +:+ c = a +:+ (b +:+ c).
Proof.
  induction a as [|ch a IH].
  - reflexivity.
  - change (String ch ((a +:+ b) +:+ c) = String ch (a +:+ (b +:+ c))).
    now rewrite IH.
Qed.

Lemma Sprintf_s_dot_s (a b : string) :
  Sprintf "%s.%s" [opString a; opString b] = a +:+ "." +:+ b.
Proof.
  unfold Sprintf. simpl. apply append_assoc.
Qed.

Lemma Sprintf_s_dot_s_dot_s (a b c : string) :
  Sprintf "%s.%s.%s" [opString a; opString b; opString c]
  = a +:+ "." +:+ b +:+ "." +:+ c.
Proof.
  unfold Sprintf. simpl. now rewrite !append_assoc.
Qed.

Lemma Errorf_wrap (e : error) :
  Errorf "error configuring Terraform AWS Provider: %w" [opError e]
  = wrapError ("error configuring Terraform AWS Provider: " +:+ Error e) e.
Proof. reflexivity. Qed.

(** ** Hostnames *)

Section Hostnames.

Context {DefaultConfig IgnoreConfig IAM : Type}.
Implicit Type client : AWSClient DefaultConfig IgnoreConfig IAM.

Lemma PartitionHostname_spec client (prefix : string) :
  PartitionHostname client prefix = prefix +:+ "." +:+ dnsSuffix client.
Proof. apply Sprintf_s_dot_s. Qed.

Lemma RegionalHostname_spec client (prefix : string) :
  RegionalHostname client prefix
  = prefix +:+ "." +:+ region client +:+ "." +:+ dnsSuffix client.
Proof. apply Sprintf_s_dot_s_dot_s. Qed.

(** C7.  For every client and every prefix, [RegionalHostname prefix] is
    [PartitionHostname] applied to prefix, a period and the client's
    region; both helpers end in a period and the client's DNS suffix, and
    [RegionalHostname] puts the region between the prefix and that
    suffix. *)
Theorem RegionalHostname_is_PartitionHostname_of_region client (prefix : string) :
  RegionalHostname client prefix
    = PartitionHostname client (prefix +:+ "." +:+ region client)
  /\ PartitionHostname client prefix = prefix +:+ "." +:+ dnsSuffix client
  /\ RegionalHostname client prefix
       = prefix +:+ "." +:+ region client +:+ "." +:+ dnsSuffix client.
Proof.
  rewrite RegionalHostname_spec, !PartitionHostname_spec.
  split; [|split; reflexivity].
  now rewrite !append_assoc.
Qed.

End Hostnames.

(** ** The tags schema *)

(** C6.  [tagsSchemaComputed] takes no input and returns, on every call, a
    schema of type [TypeMap] whose [Elem] is a schema of type
    [TypeString], marked [Optional] and [Computed]. *)
Theorem tagsSchemaComputed_is_computed_string_map (u : unit) :
  schema.Type' (tagsSchemaComputed u) = schema.TypeMap
  /\ schema.Type' <$> schema.Elem (tagsSchemaComputed u) = Some schema.TypeString
  /\ schema.Optional (tagsSchemaComputed u) = true
  /\ schema.Computed (tagsSchemaComputed u) = true
  /\ tagsSchemaComputed u = tagsSchemaComputed tt.
Proof.
  destruct u. repeat split.
Qed.

(** ** Config.Client *)

Section ClientProperties.

Context {DefaultConfig IgnoreConfig Session IAM Partition : Type}.
Variable sdk : Sdk Session IAM Partition.
Implicit Type c : Config DefaultConfig IgnoreConfig.
Implicit Type client : AWSClient DefaultConfig IgnoreConfig IAM.
Implicit Type e : error.

(** Unfolds [Client] and splits on every branch it takes. *)
Ltac client_cases :=
  unfold Client, regionAccepted, regionCalls, iamEndpointConfig,
    awsbase_ValidateRegion, awsbase_GetSessionWithAccountIDAndPartition,
    awsbase_ValidateAccountID, endpoints_PartitionForRegion, iam_New_traced,
    log_Printf, call, result, trace, mbind, mret, Traced_bind, Traced_ret in *;
  repeat case_match;
  repeat match goal with
         | H : negb _ = true |- _ => apply negb_true_iff in H
         | H : negb _ = false |- _ => apply negb_false_iff in H
         end;
  simplify_eq; simpl in *; simplify_eq.

(** The region check failing ends the run at once, with the library's
    error. *)
Lemma Client_region_rejected c e :
  SkipRegionValidation c = false ->
  ValidateRegion sdk (Region c) = Some e ->
  Client sdk c = ((None, Some e), [ValidateRegionCall (Region c)]).
Proof.
  intros Hs Hr. unfold Client, awsbase_ValidateRegion, call, mbind, mret,
    Traced_bind, Traced_ret.
  rewrite Hs, Hr. reflexivity.
Qed.

(** Session creation failing ends the run with the wrapped error. *)
Lemma Client_session_failed c sess accountID part e :
  regionAccepted sdk c ->
  GetSessionWithAccountIDAndPartition sdk (awsbaseConfig sdk c)
    = (sess, accountID, part, Some e) ->
  Client sdk c
  = ((None, Some (wrapError ("error configuring Terraform AWS Provider: " +:+ Error e) e)),
     (regionCalls c ++ [GetSessionCall (awsbaseConfig sdk c)])%list).
Proof.
  intros Hreg Hs. destruct Hreg; client_cases; congruence || reflexivity.
Qed.

(** Account validation failing ends the run with the library's error. *)
Lemma Client_account_rejected c sess accountID part e :
  regionAccepted sdk c ->
  GetSessionWithAccountIDAndPartition sdk (awsbaseConfig sdk c)
    = (sess, accountID, part, None) ->
  ValidateAccountID sdk accountID (AllowedAccountIds c) (ForbiddenAccountIds c)
    = Some e ->
  result (Client sdk c) = (None, Some e).
Proof.
  intros Hreg Hs Ha. destruct Hreg; client_cases; congruence.
Qed.

(** Every session-creation call of a run carries [awsbaseConfig]. *)
Lemma Client_GetSessionCall c (cfg : awsbase.Config) :
  In (GetSessionCall cfg) (trace (Client sdk c)) -> cfg = awsbaseConfig sdk c.
Proof.
  intros H; client_cases; intuition congruence.
Qed.

(** What a successful run has read from the libraries. *)
Lemma Client_success c client :
  result (Client sdk c) = (Some client, None) ->
  exists sess p ok,
    regionAccepted sdk c
    /\ GetSessionWithAccountIDAndPartition sdk (awsbaseConfig sdk c)
       = (sess, accountid client, partition client, None)
    /\ ValidateAccountID sdk (accountid client) (AllowedAccountIds c)
         (ForbiddenAccountIds c) = None
    /\ PartitionForRegion sdk (DefaultPartitions sdk) (Region c) = (p, ok)
    /\ client =
       {| accountid := accountid client;
          client_DefaultTagsConfig := DefaultTagsConfig c;
          dnsSuffix := if ok then DNSSuffix sdk p else "amazonaws.com";
          iamconn := iam_New sdk (Copy sdk sess [iamEndpointConfig c]) [];
          client_IgnoreTagsConfig := IgnoreTagsConfig c;
          partition := partition client;
          region := Region c;
          client_terraformVersion := terraformVersion c |}.
Proof.
  intros H. client_cases.
  all: do 3 eexists; simpl; split; [tauto|]; split; [reflexivity|];
    split; [assumption|]; split; [reflexivity|]; reflexivity.
Qed.

(** C1.  [Client] calls [awsbase.GetSessionWithAccountIDAndPartition]
    exactly when the region check lets the run through (it is skipped, or
    the library accepts the region), and the configuration it hands over
    carries the fields of the receiver unchanged: [AccessKey],
    [SecretKey], [Token], [Profile], [CredsFilename], [Region],
    [MaxRetries], the eight [AssumeRole] fields, and the ["iam"] and
    ["sts"] entries of [Endpoints] as [IamEndpoint] and [StsEndpoint]. *)
Theorem Client_passes_configuration_to_awsbase c :
  (regionAccepted sdk c
   <-> exists cfg, In (GetSessionCall cfg) (trace (Client sdk c)))
  /\ (regionAccepted sdk c ->
      List.filter isGetSessionCall (trace (Client sdk c))
      = [GetSessionCall (awsbaseConfig sdk c)])
  /\ (forall cfg : awsbase.Config,
        In (GetSessionCall cfg) (trace (Client sdk c)) ->
        awsbase.AccessKey cfg = AccessKey c
        /\ awsbase.SecretKey cfg = SecretKey c
        /\ awsbase.Token cfg = Token c
        /\ awsbase.Profile cfg = Profile c
        /\ awsbase.CredsFilename cfg = CredsFilename c
        /\ awsbase.Region cfg = Region c
        /\ awsbase.MaxRetries cfg = MaxRetries c
        /\ awsbase.AssumeRoleARN cfg = AssumeRoleARN c
        /\ awsbase.AssumeRoleDurationSeconds cfg = AssumeRoleDurationSeconds c
        /\ awsbase.AssumeRoleExternalID cfg = AssumeRoleExternalID c
        /\ awsbase.AssumeRolePolicy cfg = AssumeRolePolicy c
        /\ awsbase.AssumeRolePolicyARNs cfg = AssumeRolePolicyARNs c
        /\ awsbase.AssumeRoleSessionName cfg = AssumeRoleSessionName c
        /\ awsbase.AssumeRoleTags cfg = AssumeRoleTags c
        /\ awsbase.AssumeRoleTransitiveTagKeys cfg = AssumeRoleTransitiveTagKeys c
        /\ awsbase.IamEndpoint cfg = index (Endpoints c) "iam"
        /\ awsbase.StsEndpoint cfg = index (Endpoints c) "sts").
Proof.
  split; [split|split].
  - intros Hreg. exists (awsbaseConfig sdk c).
    destruct Hreg; client_cases; try congruence; simpl; tauto.
  - intros [cfg H]. client_cases; intuition (try discriminate).
  - intros Hreg. destruct Hreg; client_cases; try congruence; reflexivity.
  - intros cfg H. apply Client_GetSessionCall in H. subst cfg.
    repeat split.
Qed.


(** C4.  A client [Client] returns has the region and the Terraform
    version of the configuration, the account ID and the partition the
    base library returned, and as DNS suffix that of the partition
    [endpoints.PartitionForRegion] finds for the region among the default
    partitions, "amazonaws.com" when it finds none. *)
Theorem Client_success_fields c client :
  result (Client sdk c) = (Some client, None) ->
  region client = Region c
  /\ client_terraformVersion client = terraformVersion c
  /\ (exists sess,
        GetSessionWithAccountIDAndPartition sdk (awsbaseConfig sdk c)
        = (sess, accountid client, partition client, None))
  /\ dnsSuffix client
     = match PartitionForRegion sdk (DefaultPartitions sdk) (Region c) with
       | (p, true) => DNSSuffix sdk p
       | (_, false) => "amazonaws.com"
       end.
Proof.
  intros H. apply Client_success in H.
  destruct H as (sess & p & ok & _ & Hs & _ & Hp & Hc).
  rewrite Hp, Hc. simpl. repeat split; eauto.
Qed.

(** C5.  On success the session, the account ID and the partition are
    those [awsbase.GetSessionWithAccountIDAndPartition] returned for
    [awsbaseConfig]; it is called once; and the IAM connection is
    [iam.New] of a copy of that session made with the configured ["iam"]
    endpoint. *)
Theorem Client_delegates_session_setup c client :
  result (Client sdk c) = (Some client, None) ->
  exists sess,
    GetSessionWithAccountIDAndPartition sdk (awsbaseConfig sdk c)
      = (sess, accountid client, partition client, None)
    /\ List.filter isGetSessionCall (trace (Client sdk c))
       = [GetSessionCall (awsbaseConfig sdk c)]
    /\ iamconn client = iam_New sdk (Copy sdk sess [iamEndpointConfig c]) []
    /\ aws.Endpoint (iamEndpointConfig c) = Some (index (Endpoints c) "iam")
    /\ In (IamNewCall (Copy sdk sess [iamEndpointConfig c]) [])
          (trace (Client sdk c)).
Proof.
  intros H. client_cases.
  all: eexists; simpl; split; [reflexivity|]; repeat split; simpl; tauto.
Qed.

(** C8.  [Client] returns a client and no error, or no client and an
    error; at each of its three failure points (region validation, session
    creation, account ID validation) it returns no client. *)
Theorem Client_returns_client_or_error c :
  ((exists client, result (Client sdk c) = (Some client, None))
   \/ (exists e, result (Client sdk c) = (None, Some e)))
  /\ (forall e,
        SkipRegionValidation c = false ->
        ValidateRegion sdk (Region c) = Some e ->
        result (Client sdk c) = (None, Some e))
  /\ (forall sess accountID part e,
        regionAccepted sdk c ->
        GetSessionWithAccountIDAndPartition sdk (awsbaseConfig sdk c)
          = (sess, accountID, part, Some e) ->
        exists e', result (Client sdk c) = (None, Some e'))
  /\ (forall sess accountID part e,
        regionAccepted sdk c ->
        GetSessionWithAccountIDAndPartition sdk (awsbaseConfig sdk c)
          = (sess, accountID, part, None) ->
        ValidateAccountID sdk accountID (AllowedAccountIds c)
          (ForbiddenAccountIds c) = Some e ->
        result (Client sdk c) = (None, Some e)).
Proof.
  split; [|split; [|split]].
  - client_cases; eauto.
  - intros e Hs Hr. now rewrite (Client_region_rejected c e Hs Hr).
  - intros sess accountID part e Hreg Hs.
    rewrite (Client_session_failed c sess accountID part e Hreg Hs). eauto.
  - intros sess accountID part e. apply Client_account_rejected.
Qed.

(** C9.  [Client] stops with the error of [awsbase.ValidateRegion],
    unchanged and after that one call, exactly when [SkipRegionValidation]
    is false and the library rejects the region; when
    [SkipRegionValidation] is true, [ValidateRegion] is not called and the
    first call is session creation, whatever the region. *)
Theorem Client_region_validation_gate c :
  (forall e,
     (SkipRegionValidation c = false /\ ValidateRegion sdk (Region c) = Some e)
     <-> Client sdk c = ((None, Some e), [ValidateRegionCall (Region c)]))
  /\ (SkipRegionValidation c = true ->
      List.filter isValidateRegionCall (trace (Client sdk c)) = []
      /\ exists rest,
           trace (Client sdk c) = GetSessionCall (awsbaseConfig sdk c) :: rest).
Proof.
  split.
  - intros e. split.
    + intros [Hs Hr]. now apply Client_region_rejected.
    + intros H. client_cases; auto.
  - intros Hs. client_cases; try congruence; split; eauto.
Qed.

End ClientProperties.

(** ** The data source *)

(** C3.  The provider exposes one data source and no resource; of the
    data source's handlers only [Read] is set; a read makes one call of
    the IAM API and, when that succeeds, stores the role's ARN under
    [arn], the one attribute the schema computes, leaving every other
    attribute as it was; when the call fails the attributes are unchanged
    and the error is the API's. *)
Theorem provider_exposes_one_read_only_data_source :
  DataSource.DataSourcesMap (DataSource.Provider tt)
    = [("awssso_role", DataSource.dataSourceAwsSsoRole)]
  /\ length (DataSource.DataSourcesMap (DataSource.Provider tt)) = 1
  /\ DataSource.ResourcesMap (DataSource.Provider tt) = []
  /\ DataSource.Read DataSource.dataSourceAwsSsoRole
       = Some DataSource.dataSourceAwsSsoRoleRead
  /\ DataSource.Create DataSource.dataSourceAwsSsoRole = None
  /\ DataSource.Update DataSource.dataSourceAwsSsoRole = None
  /\ DataSource.Delete DataSource.dataSourceAwsSsoRole = None
  /\ DataSource.computedAttributes DataSource.dataSourceAwsSsoRole = ["arn"]
  /\ forall (iam : DataSource.IamApi) (d : DataSource.ResourceData),
       snd (DataSource.dataSourceAwsSsoRoleRead iam d)
         = [DataSource.LookupRoleCall (index d "permission_set_name")]
       /\ delete "arn" (fst (fst (DataSource.dataSourceAwsSsoRoleRead iam d)))
          = delete "arn" d
       /\ match DataSource.lookupRole iam (index d "permission_set_name") with
          | (arn, None) =>
              fst (DataSource.dataSourceAwsSsoRoleRead iam d)
                = (<["arn" := arn]> d, None)
          | (_, Some e) =>
              fst (DataSource.dataSourceAwsSsoRoleRead iam d) = (d, Some e)
          end.
Proof.
  repeat split.
  - unfold DataSource.dataSourceAwsSsoRoleRead.
    destruct (DataSource.lookupRole iam _) as [arn [e|]]; reflexivity.
  - unfold DataSource.dataSourceAwsSsoRoleRead.
    destruct (DataSource.lookupRole iam _) as [arn [e|]]; simpl.
    + reflexivity.
    + apply delete_insert_eq.
  - unfold DataSource.dataSourceAwsSsoRoleRead.
    destruct (DataSource.lookupRole iam _) as [arn [e|]]; reflexivity.
Qed.

(** ** Runs in the example environment *)

Example PartitionHostname_iam :
  PartitionHostname Example.goodClient "iam" = "iam.amazonaws.com".
Proof. reflexivity. Qed.

Example RegionalHostname_iam :
  RegionalHostname Example.goodClient "iam" = "iam.us-west-2.amazonaws.com".
Proof. reflexivity. Qed.

Example Sprintf_missing_operand :
  Sprintf "%s.%s.%s" [opString "iam"; opString "amazonaws.com"]
  = "iam.amazonaws.com.%!s(MISSING)".
Proof. reflexivity. Qed.

Example Client_goodConfig_trace :
  trace (Client Example.sdk Example.goodConfig)
  = [ ValidateRegionCall "us-west-2";
      GetSessionCall (awsbaseConfig Example.sdk Example.goodConfig);
      ValidateAccountIDCall "123456789012" [] [];
      PartitionForRegionCall "us-west-2";
      IamNewCall [ aws.mkConfig None (Some "us-west-2") None None;
                   aws.mkConfig (Some "https://iam.example.test") None None None ]
                 [] ].
Proof. reflexivity. Qed.

Example Client_chinaConfig_dnsSuffix :
  dnsSuffix <$> fst (result (Client Example.sdk Example.chinaConfig))
  = Some "amazonaws.com.cn".
Proof. reflexivity. Qed.

Example Client_skipRegionConfig_dnsSuffix :
  dnsSuffix <$> fst (result (Client Example.sdk Example.skipRegionConfig))
  = Some "amazonaws.com".
Proof. reflexivity. Qed.

Example GetSupportedEC2Platforms_platforms :
  GetSupportedEC2Platforms Example.platformsConn = Returns (["EC2"; "VPC"], None).
Proof. reflexivity. Qed.

Example GetSupportedEC2Platforms_request_failed :
  GetSupportedEC2Platforms Example.failingConn
  = Returns ([], Some Example.unauthorized).
Proof. reflexivity. Qed.

Example dataSourceAwsSsoRoleRead_readonly :
  fst (DataSource.dataSourceAwsSsoRoleRead Example.iamApi
         {[ "permission_set_name" := "ReadOnly" ]})
  = ({[ "permission_set_name" := "ReadOnly";
        "arn" := "arn:aws:iam::123456789012:role/aws-reserved/sso.amazonaws.com/AWSReservedSSO_ReadOnly" ]},
     None).
Proof. vm_compute. reflexivity. Qed.


(** C1 at [goodConfig], whose region the library accepts, and at
    [skipRegionConfig], whose region check is skipped: in both runs the
    session call is made, once, and carries the region and the endpoints
    of the configuration. *)
Lemma Client_passes_configuration_to_awsbase_example :
  (exists cfg,
     In (GetSessionCall cfg) (trace (Client Example.sdk Example.goodConfig))
     /\ awsbase.Region cfg = "us-west-2"
     /\ awsbase.IamEndpoint cfg = "https://iam.example.test"
     /\ awsbase.StsEndpoint cfg = "")
  /\ (exists cfg,
        In (GetSessionCall cfg) (trace (Client Example.sdk Example.skipRegionConfig))
        /\ awsbase.Region cfg = "mars-1"
        /\ awsbase.IamEndpoint cfg = "https://iam.example.test"
        /\ awsbase.StsEndpoint cfg = "")
  /\ List.filter isGetSessionCall
       (trace (Client Example.sdk Example.skipRegionConfig))
     = [GetSessionCall (awsbaseConfig Example.sdk Example.skipRegionConfig)].
Proof.
  destruct (Client_passes_configuration_to_awsbase Example.sdk Example.goodConfig)
    as (Hcalled & _ & Hfields).
  destruct (Client_passes_configuration_to_awsbase Example.sdk Example.skipRegionConfig)
    as (Hcalled' & Honce' & Hfields').
  split; [|split].
  - destruct (proj1 Hcalled (or_intror eq_refl)) as [cfg H].
    exists cfg. split; [exact H|].
    destruct (Hfields cfg H)
      as (_ & _ & _ & _ & _ & Hregion & _ & _ & _ & _ & _ & _ & _ & _ & _ & Hiam & Hsts).
    rewrite Hregion, Hiam, Hsts. repeat split.
  - destruct (proj1 Hcalled' (or_introl eq_refl)) as [cfg H].
    exists cfg. split; [exact H|].
    destruct (Hfields' cfg H)
      as (_ & _ & _ & _ & _ & Hregion & _ & _ & _ & _ & _ & _ & _ & _ & _ & Hiam & Hsts).
    rewrite Hregion, Hiam, Hsts. repeat split.
  - apply Honce'. left. reflexivity.
Defined.


(** C4 at [goodConfig]. *)
Lemma Client_success_fields_example :
  result (Client Example.sdk Example.goodConfig) = (Some Example.goodClient, None)
  /\ region Example.goodClient = "us-west-2"
  /\ client_terraformVersion Example.goodClient = "0.14.7"
  /\ dnsSuffix Example.goodClient = "amazonaws.com".
Proof.
  assert (H : result (Client Example.sdk Example.goodConfig)
              = (Some Example.goodClient, None)) by reflexivity.
  split; [exact H|].
  destruct (Client_success_fields Example.sdk Example.goodConfig _ H)
    as (Hr & Hv & _ & Hd).
  rewrite Hr, Hv, Hd. repeat split.
Defined.

(** C5 at [goodConfig]. *)
Lemma Client_delegates_session_setup_example :
  result (Client Example.sdk Example.goodConfig) = (Some Example.goodClient, None)
  /\ exists sess,
       Example.getSession (awsbaseConfig Example.sdk Example.goodConfig)
         = (sess, "123456789012", "aws", None)
       /\ iamconn Example.goodClient
          = Example.mkIamClient
              (sess ++ [iamEndpointConfig Example.goodConfig])%list [].
Proof.
  assert (H : result (Client Example.sdk Example.goodConfig)
              = (Some Example.goodClient, None)) by reflexivity.
  split; [exact H|].
  destruct (Client_delegates_session_setup Example.sdk Example.goodConfig _ H)
    as (sess & Hs & _ & Hconn & _).
  exists sess. split; [exact Hs | exact Hconn].
Defined.

(** C8 at each failure point: a rejected region, missing credentials, a
    forbidden account. *)
Lemma Client_returns_client_or_error_example :
  result (Client Example.sdk Example.badRegionConfig)
    = (None, Some (errorString "Invalid AWS Region: mars-1"))
  /\ (exists e',
        result (Client Example.sdk Example.noCredentialsConfig) = (None, Some e'))
  /\ result (Client Example.sdk Example.forbiddenConfig)
     = (None, Some (errorString "Forbidden AWS Account ID: 123456789012")).
Proof.
  split; [|split].
  - destruct (Client_returns_client_or_error Example.sdk Example.badRegionConfig)
      as (_ & Hregion & _).
    apply Hregion; reflexivity.
  - destruct (Client_returns_client_or_error Example.sdk Example.noCredentialsConfig)
      as (_ & _ & Hsession & _).
    apply (Hsession [] "" "" Example.noCredentials); [right|]; reflexivity.
  - destruct (Client_returns_client_or_error Example.sdk Example.forbiddenConfig)
      as (_ & _ & _ & Haccount).
    apply (Haccount [aws.mkConfig None (Some "us-west-2") None None]
                    "123456789012" "aws");
      [right| |]; reflexivity.
Defined.

(** C9 at a rejected region, with and without the region check. *)
Lemma Client_region_validation_gate_example :
  Client Example.sdk Example.badRegionConfig
    = ((None, Some (errorString "Invalid AWS Region: mars-1")),
       [ValidateRegionCall "mars-1"])
  /\ List.filter isValidateRegionCall
       (trace (Client Example.sdk Example.skipRegionConfig)) = []
  /\ exists rest,
       trace (Client Example.sdk Example.skipRegionConfig)
       = GetSessionCall (awsbaseConfig Example.sdk Example.skipRegionConfig) :: rest.
Proof.
  split.
  - destruct (Client_region_validation_gate Example.sdk Example.badRegionConfig)
      as [Hiff _].
    apply Hiff. split; reflexivity.
  - destruct (Client_region_validation_gate Example.sdk Example.skipRegionConfig)
      as [_ Hskip].
    apply Hskip. reflexivity.
Defined.

(** * Further properties *)

(** ** GetSupportedEC2Platforms *)

Lemma appendValues_platformValues (ss platforms : list string) :
  appendValues (map platformValue ss) platforms = Returns (platforms ++ ss)%list.
Proof.
  revert platforms. induction ss as [|s ss IH]; intros platforms; simpl.
  - now rewrite app_nil_r.
  - rewrite IH. now rewrite <- app_assoc.
Qed.

Lemma appendValues_nonNil (vs : list (option ec2.AccountAttributeValue))
    (platforms : list string) :
  forallb nonNilValue vs = true ->
  exists r, appendValues vs platforms = Returns r.
Proof.
  revert platforms. induction vs as [|[v|] vs IH]; intros platforms H; simpl in *.
  - eauto.
  - apply andb_prop in H as [Hv Hvs].
    destruct (ec2.AttributeValue v); [apply IH; assumption | discriminate].
  - discriminate.
Qed.

(** Attributes with another name are stepped over, whatever their values. *)
Lemma scanAttributes_skip (pre rest : list (option ec2.AccountAttribute))
    (attrName : string) (platforms : list string) :
  forallb (namedOtherThan attrName) pre = true ->
  scanAttributes (pre ++ rest)%list attrName platforms
  = scanAttributes rest attrName platforms.
Proof.
  induction pre as [|[attr|] pre IH]; intros H; simpl in *.
  - reflexivity.
  - apply andb_prop in H as [Ha Hpre].
    destruct (ec2.AttributeName attr) as [n|]; [|discriminate].
    apply negb_true_iff in Ha. rewrite Ha. now apply IH.
  - discriminate.
Qed.

Lemma scanAttributes_nonNil (attrs : list (option ec2.AccountAttribute))
    (attrName : string) (platforms : list string) :
  forallb nonNilAttribute attrs = true ->
  exists r, scanAttributes attrs attrName platforms = Returns r.
Proof.
  induction attrs as [|[attr|] attrs IH]; intros H; simpl in *.
  - eauto.
  - apply andb_prop in H as [Ha Hattrs]. apply andb_prop in Ha as [Hn Hv].
    destruct (ec2.AttributeName attr) as [n|]; [|discriminate].
    destruct (String.eqb n attrName).
    + now apply appendValues_nonNil.
    + now apply IH.
  - discriminate.
Qed.

(** What [GetSupportedEC2Platforms] does with the platforms it has
    collected. *)
Lemma GetSupportedEC2Platforms_scanned (conn : ec2.EC2)
    (out : ec2.DescribeAccountAttributesOutput) (platforms : list string) :
  ec2.DescribeAccountAttributes conn supportedPlatformsInput = (Some out, None) ->
  scanAttributes (ec2.AccountAttributes out) "supported-platforms" []
    = Returns platforms ->
  GetSupportedEC2Platforms conn
  = match platforms with
    | [] => Returns ([], Some noPlatformsDetected)
    | _ :: _ => Returns (platforms, None)
    end.
Proof.
  intros Hresp Hscan. unfold GetSupportedEC2Platforms.
  change (ec2.mkDescribeAccountAttributesInput [aws.String "supported-platforms"])
    with supportedPlatformsInput.
  rewrite Hresp, Hscan. now destruct platforms.
Qed.

(** X1.  When [GetSupportedEC2Platforms] returns, it returns either at
    least one platform and no error, or no platform and an error: never an
    empty list without an error, never platforms beside an error. *)
Theorem GetSupportedEC2Platforms_platforms_or_error (conn : ec2.EC2)
    (platforms : list string) (err : option error) :
  GetSupportedEC2Platforms conn = Returns (platforms, err) ->
  (platforms <> [] /\ err = None) \/ (platforms = [] /\ is_Some err).
Proof.
  unfold GetSupportedEC2Platforms.
  destruct (ec2.DescribeAccountAttributes conn _) as [attributes [e|]]; simpl;
    intros H.
  - right. inversion H. split; [reflexivity | eauto].
  - destruct attributes as [out|]; [|discriminate].
    destruct (scanAttributes _ _ _) as [ps|]; [|discriminate].
    destruct ps as [|p ps]; simpl in H; inversion H.
    + right. split; [reflexivity | eauto].
    + left. split; [discriminate | reflexivity].
Qed.

(** X2.  [GetSupportedEC2Platforms] does not panic when the request
    failed, whatever came back with the error, nor when the request
    succeeded with a response in which no pointer is nil. *)
Theorem GetSupportedEC2Platforms_returns (conn : ec2.EC2) :
  is_Some (snd (ec2.DescribeAccountAttributes conn supportedPlatformsInput))
  \/ (exists out,
        fst (ec2.DescribeAccountAttributes conn supportedPlatformsInput) = Some out
        /\ forallb nonNilAttribute (ec2.AccountAttributes out) = true) ->
  exists r, GetSupportedEC2Platforms conn = Returns r.
Proof.
  unfold GetSupportedEC2Platforms.
  change (ec2.mkDescribeAccountAttributesInput [aws.String "supported-platforms"])
    with supportedPlatformsInput.
  destruct (ec2.DescribeAccountAttributes conn supportedPlatformsInput)
    as [attributes [e|]]; simpl.
  - eauto.
  - intros [[e He] | (out & Hout & Hok)]; [discriminate|]. subst attributes.
    destruct (scanAttributes_nonNil _ "supported-platforms" [] Hok) as [ps Hps].
    rewrite Hps. destruct (length ps =? 0)%nat; eauto.
Qed.

(** X3.  The platforms returned are the values of the first attribute
    named [supported-platforms], in the order of the response.  The
    attributes before it only need a name; what follows it is not read:
    later attributes of the same name and nil pointers after it change
    nothing. *)
Theorem GetSupportedEC2Platforms_first_match (conn : ec2.EC2)
    (pre post : list (option ec2.AccountAttribute))
    (attr : ec2.AccountAttribute) (s : string) (ss : list string) :
  ec2.DescribeAccountAttributes conn supportedPlatformsInput
    = (Some (ec2.mkDescribeAccountAttributesOutput (pre ++ Some attr :: post)%list),
       None) ->
  forallb (namedOtherThan "supported-platforms") pre = true ->
  ec2.AttributeName attr = Some "supported-platforms" ->
  ec2.AttributeValues attr = map platformValue (s :: ss) ->
  GetSupportedEC2Platforms conn = Returns (s :: ss, None).
Proof.
  intros Hresp Hpre Hname Hvalues.
  rewrite (GetSupportedEC2Platforms_scanned conn _ (s :: ss) Hresp); [reflexivity|].
  cbn [ec2.AccountAttributes].
  rewrite scanAttributes_skip by assumption.
  cbn [scanAttributes]. rewrite Hname, Hvalues.
  change (String.eqb "supported-platforms" "supported-platforms") with true.
  cbv iota. now rewrite appendValues_platformValues.
Qed.

(** X4.  The error "no EC2 platforms detected" is returned when the first
    attribute named [supported-platforms] has no values, even if a later
    attribute of that name has some, and when no attribute has that
    name. *)
Theorem GetSupportedEC2Platforms_none_detected (conn : ec2.EC2)
    (pre rest : list (option ec2.AccountAttribute)) :
  ec2.DescribeAccountAttributes conn supportedPlatformsInput
    = (Some (ec2.mkDescribeAccountAttributesOutput (pre ++ rest)%list), None) ->
  forallb (namedOtherThan "supported-platforms") pre = true ->
  rest = []
  \/ (exists post,
        rest = Some (ec2.mkAccountAttribute (Some "supported-platforms") []) :: post) ->
  GetSupportedEC2Platforms conn = Returns ([], Some noPlatformsDetected).
Proof.
  intros Hresp Hpre Hrest.
  rewrite (GetSupportedEC2Platforms_scanned conn _ [] Hresp); [reflexivity|].
  cbn [ec2.AccountAttributes].
  rewrite scanAttributes_skip by assumption.
  destruct Hrest as [-> | [post ->]]; reflexivity.
Qed.

(** ** Config.Client: what it reads, what it calls *)

Section ClientCalls.

Context {DefaultConfig IgnoreConfig Session IAM Partition : Type}.
Variable sdk : Sdk Session IAM Partition.
Implicit Type c : Config DefaultConfig IgnoreConfig.
Implicit Type client : AWSClient DefaultConfig IgnoreConfig IAM.
Implicit Type e : error.

(** Unfolds [Client] and splits on every branch it takes. *)
Ltac client_run :=
  unfold Client, regionAccepted, regionCalls, iamEndpointConfig,
    awsbase_ValidateRegion, awsbase_GetSessionWithAccountIDAndPartition,
    awsbase_ValidateAccountID, endpoints_PartitionForRegion, iam_New_traced,
    log_Printf, call, result, trace, mbind, mret, Traced_bind, Traced_ret in *;
  repeat case_match;
  repeat match goal with
         | H : negb _ = true |- _ => apply negb_true_iff in H
         | H : negb _ = false |- _ => apply negb_false_iff in H
         end;
  simplify_eq; simpl in *; simplify_eq.

(** The configuration for the base library reads neither
    [SkipGetEC2Platforms] nor [S3ForcePathStyle], and of [Endpoints] the
    entries ["iam"] and ["sts"] only. *)
Lemma awsbaseConfig_withGlobalServiceFields c (skipEC2 s3 : bool) (endpoints : gmap string string) :
  index endpoints "iam" = index (Endpoints c) "iam" ->
  index endpoints "sts" = index (Endpoints c) "sts" ->
  awsbaseConfig sdk (withGlobalServiceFields c skipEC2 s3 endpoints) = awsbaseConfig sdk c.
Proof.
  intros Hiam Hsts. unfold awsbaseConfig. simpl. now rewrite Hiam, Hsts.
Qed.

(** X5.  The client and the error [Client] returns, and its recorded
    calls with their arguments, do not depend on [SkipGetEC2Platforms], on
    [S3ForcePathStyle], or on the entries of [Endpoints] other than
    ["iam"] and ["sts"].  (Lines 149 to 183 read [S3ForcePathStyle] and
    four more entries of [Endpoints], but what they build goes to
    [aws.String] and [aws.Bool] only and reaches neither the result nor a
    recorded call.) *)
Theorem Client_unaffected_by_global_service_fields c (skipEC2 s3 : bool)
    (endpoints : gmap string string) :
  index endpoints "iam" = index (Endpoints c) "iam" ->
  index endpoints "sts" = index (Endpoints c) "sts" ->
  Client sdk (withGlobalServiceFields c skipEC2 s3 endpoints) = Client sdk c.
Proof.
  intros Hiam Hsts.
  pose proof (awsbaseConfig_withGlobalServiceFields c skipEC2 s3 endpoints Hiam Hsts) as Hcfg.
  unfold Client. rewrite Hcfg.
  cbn [withGlobalServiceFields SkipRegionValidation Region AllowedAccountIds
       ForbiddenAccountIds Endpoints DefaultTagsConfig IgnoreTagsConfig
       terraformVersion].
  rewrite Hiam.
  unfold awsbase_ValidateRegion, awsbase_GetSessionWithAccountIDAndPartition,
    awsbase_ValidateAccountID, endpoints_PartitionForRegion, iam_New_traced,
    log_Printf, call, mbind, mret, Traced_bind, Traced_ret.
  destruct (negb (SkipRegionValidation c)); simpl;
    [destruct (ValidateRegion sdk (Region c)); simpl; [reflexivity|]|].
  all: destruct (GetSessionWithAccountIDAndPartition sdk (awsbaseConfig sdk c))
         as [[[sess accountID] part] [serr|]]; simpl; [reflexivity|].
  all: destruct (String.eqb accountID ""); simpl.
  all: destruct (ValidateAccountID sdk accountID (AllowedAccountIds c)
                   (ForbiddenAccountIds c)); simpl; [reflexivity|].
  all: destruct (PartitionForRegion sdk (DefaultPartitions sdk) (Region c)); simpl.
  all: destruct (globalServiceConfigs (withGlobalServiceFields c skipEC2 s3 endpoints) part)
         as [[[? ?] ?] ?].
  all: destruct (globalServiceConfigs c part) as [[[? ?] ?] ?].
  all: reflexivity.
Qed.

(** X6.  For a region the library accepts, [SkipRegionValidation] only
    decides whether [ValidateRegion] is called: the result is the same, and
    the calls are the same after that first one. *)
Theorem Client_skipping_accepted_region c :
  ValidateRegion sdk (Region c) = None ->
  Client sdk (withSkipRegionValidation c false)
  = (result (Client sdk (withSkipRegionValidation c true)),
     ValidateRegionCall (Region c)
       :: trace (Client sdk (withSkipRegionValidation c true))).
Proof.
  intros Hregion.
  unfold Client, result, trace.
  change (awsbaseConfig sdk (withSkipRegionValidation c false))
    with (awsbaseConfig sdk c).
  change (awsbaseConfig sdk (withSkipRegionValidation c true))
    with (awsbaseConfig sdk c).
  cbn [withSkipRegionValidation SkipRegionValidation Region AllowedAccountIds
       ForbiddenAccountIds Endpoints DefaultTagsConfig IgnoreTagsConfig
       terraformVersion negb].
  unfold awsbase_ValidateRegion, awsbase_GetSessionWithAccountIDAndPartition,
    awsbase_ValidateAccountID, endpoints_PartitionForRegion, iam_New_traced,
    log_Printf, call, mbind, mret, Traced_bind, Traced_ret.
  rewrite Hregion.
  destruct (GetSessionWithAccountIDAndPartition sdk (awsbaseConfig sdk c))
    as [[[sess accountID] part] [serr|]]; simpl; [reflexivity|].
  destruct (String.eqb accountID ""); simpl.
  all: destruct (ValidateAccountID sdk accountID (AllowedAccountIds c)
                   (ForbiddenAccountIds c)); simpl; [reflexivity|].
  all: destruct (PartitionForRegion sdk (DefaultPartitions sdk) (Region c)); simpl.
  all: destruct (globalServiceConfigs (withSkipRegionValidation c false) part)
         as [[[? ?] ?] ?].
  all: destruct (globalServiceConfigs (withSkipRegionValidation c true) part)
         as [[[? ?] ?] ?].
  all: reflexivity.
Qed.

(** X7.  [Client] builds an IAM connection exactly on the runs that
    succeed: [iam.New] is called if and only if a client is returned; it
    is the last recorded call, so no call of aws-sdk-go-base, of
    [log.Printf] or of [endpoints.PartitionForRegion] follows it (the
    pointer helpers of lines 150 to 183, which do, are not recorded); and
    it gets the copy of the session the base library returned and no
    further configuration. *)
Theorem Client_builds_iam_connection_iff_success c :
  ((exists client, result (Client sdk c) = (Some client, None))
   <-> (exists p cfgs, In (IamNewCall p cfgs) (trace (Client sdk c))))
  /\ (forall p cfgs,
        In (IamNewCall p cfgs) (trace (Client sdk c)) ->
        last (trace (Client sdk c)) = Some (IamNewCall p cfgs)
        /\ cfgs = []
        /\ exists sess accountID part,
             GetSessionWithAccountIDAndPartition sdk (awsbaseConfig sdk c)
               = (sess, accountID, part, None)
             /\ p = Copy sdk sess [iamEndpointConfig c]).
Proof.
  split; [split|].
  - intros [client H]. client_run; do 2 eexists; simpl; tauto.
  - intros (p & cfgs & H). client_run; intuition (try discriminate; eauto).
  - intros p cfgs H. client_run; intuition (try discriminate).
    all: simplify_eq; repeat split; eauto.
Qed.

(** X8.  The only line [Client] logs is the account ID warning, and it
    logs it exactly when session creation succeeded with an empty account
    ID; the run then goes on to validate the empty ID. *)
Theorem Client_warns_iff_account_ID_empty c :
  (forall line, In (LogPrintfCall line) (trace (Client sdk c)) ->
                line = accountIDWarning)
  /\ (In (LogPrintfCall accountIDWarning) (trace (Client sdk c))
      <-> regionAccepted sdk c
          /\ exists sess part,
               GetSessionWithAccountIDAndPartition sdk (awsbaseConfig sdk c)
                 = (sess, "", part, None))
  /\ (In (LogPrintfCall accountIDWarning) (trace (Client sdk c)) ->
      In (ValidateAccountIDCall "" (AllowedAccountIds c) (ForbiddenAccountIds c))
         (trace (Client sdk c))).
Proof.
  split; [|split].
  - intros line H. client_run; intuition (try discriminate).
    all: simplify_eq; reflexivity.
  - split.
    + intros H. client_run; intuition (try discriminate).
      all: match goal with
           | H : String.eqb _ "" = true |- _ => apply String.eqb_eq in H; subst
           end; eauto.
    + intros [Hreg (sess & part & Hs)].
      destruct Hreg; client_run; try congruence; simpl; tauto.
  - intros H. client_run; intuition (try discriminate).
    all: match goal with
         | H : String.eqb _ "" = true |- _ => apply String.eqb_eq in H; subst
         end; simpl; tauto.
Qed.

(** X9.  A client [Client] returns carries the configuration's
    [DefaultTagsConfig] and [IgnoreTagsConfig], the same pointers. *)
Theorem Client_hands_on_tag_configurations c client :
  result (Client sdk c) = (Some client, None) ->
  client_DefaultTagsConfig client = DefaultTagsConfig c
  /\ client_IgnoreTagsConfig client = IgnoreTagsConfig c.
Proof.
  intros H. apply Client_success in H.
  destruct H as (sess & p & ok & _ & _ & _ & _ & Hc).
  rewrite Hc. split; reflexivity.
Qed.

(** X10.  The configuration [Client] hands to the base library also
    carries [Insecure] and the three [Skip] switches the base library
    knows, takes [DebugLogging] from the logging level, names the caller
    "Terraform AWS Provider", and lists three user agent products, the
    last of them Terraform at the configuration's [terraformVersion]. *)
Theorem Client_awsbase_switches_and_user_agent c (cfg : awsbase.Config) :
  In (GetSessionCall cfg) (trace (Client sdk c)) ->
  awsbase.Insecure cfg = Insecure c
  /\ awsbase.SkipCredsValidation cfg = SkipCredsValidation c
  /\ awsbase.SkipMetadataApiCheck cfg = SkipMetadataApiCheck c
  /\ awsbase.SkipRequestingAccountId cfg = SkipRequestingAccountId c
  /\ awsbase.DebugLogging cfg = IsDebugOrHigher sdk
  /\ awsbase.CallerName cfg = "Terraform AWS Provider"
  /\ awsbase.CallerDocumentationURL cfg
     = "https://registry.terraform.io/providers/hashicorp/aws"
  /\ map awsbase.Name (awsbase.UserAgentProducts cfg)
     = ["APN"; "HashiCorp"; "Terraform"]
  /\ map awsbase.Version (awsbase.UserAgentProducts cfg)
     = ["1.0"; "1.0"; terraformVersion c].
Proof.
  intros H. apply Client_GetSessionCall in H. subst cfg. repeat split.
Qed.

(** X11.  Every account ID validation of a run is for the account ID the
    session call returned, against the configuration's own allowed and
    forbidden lists, and happens only after session creation succeeded. *)
Theorem Client_validates_session_account_ID c (accountID : string)
    (allowed forbidden : list string) :
  In (ValidateAccountIDCall accountID allowed forbidden) (trace (Client sdk c)) ->
  allowed = AllowedAccountIds c
  /\ forbidden = ForbiddenAccountIds c
  /\ exists sess part,
       GetSessionWithAccountIDAndPartition sdk (awsbaseConfig sdk c)
         = (sess, accountID, part, None).
Proof.
  intros H. client_run; intuition (try discriminate).
  all: simplify_eq; repeat split; eauto.
Qed.

(** X12.  The recorded calls of a run follow the order of the program
    text, each of the six functions called at most once:
    [awsbase.ValidateRegion], [awsbase.GetSessionWithAccountIDAndPartition],
    [log.Printf], [awsbase.ValidateAccountID],
    [endpoints.PartitionForRegion], [iam.New].  (Calls of other functions
    are not recorded and not ordered by this.) *)
Theorem Client_calls_in_order c :
  sublist (map kindOf (trace (Client sdk c))) clientCallOrder.
Proof.
  client_run; unfold clientCallOrder;
    repeat first [ apply sublist_nil | apply sublist_skip | apply sublist_cons ].
Qed.

(** X14.  The hostnames of a client [Client] returns are built from the
    configuration's region and the suffix of its partition, or
    "amazonaws.com" when the region is in no default partition. *)
Theorem Client_hostnames c client (prefix : string) :
  result (Client sdk c) = (Some client, None) ->
  let suffix :=
    match PartitionForRegion sdk (DefaultPartitions sdk) (Region c) with
    | (p, true) => DNSSuffix sdk p
    | (_, false) => "amazonaws.com"
    end in
  PartitionHostname client prefix = prefix +:+ "." +:+ suffix
  /\ RegionalHostname client prefix
     = prefix +:+ "." +:+ Region c +:+ "." +:+ suffix.
Proof.
  intros H. apply Client_success in H.
  destruct H as (sess & p & ok & _ & _ & _ & Hp & Hc).
  rewrite PartitionHostname_spec, RegionalHostname_spec.
  rewrite Hp, Hc. simpl. destruct ok; split; reflexivity.
Qed.

(** X15.  [Client] stops at the first recorded call that returns an
    error: on success no recorded call returned one; on failure exactly
    one did, it is the last recorded call (after it come at most
    [fmt.Errorf] and [return]), and the error returned is that error or
    wraps it. *)
Theorem Client_stops_at_first_error c :
  match snd (result (Client sdk c)) with
  | None => libraryErrors sdk (trace (Client sdk c)) = []
  | Some e =>
      exists ev e',
        last (trace (Client sdk c)) = Some ev
        /\ returnedError sdk ev = Some e'
        /\ libraryErrors sdk (trace (Client sdk c)) = [e']
        /\ (e = e' \/ Unwrap e = Some e')
  end.
Proof.
  unfold libraryErrors.
  client_run; try (do 2 eexists); cbn;
    repeat match goal with
           | H : _ = _ |- _ => rewrite H
           end; cbn; try reflexivity.
  all: split; [reflexivity|]; cbn;
    repeat match goal with
           | H : _ = _ |- _ => rewrite H
           end;
    split; [reflexivity|]; split; [reflexivity|]; auto.
Qed.

End ClientCalls.

(** ** Hostnames: distinct prefixes *)

Lemma append_length (a b : string) :
  String.length (a +:+ b) = (String.length a + String.length b)%nat.
Proof.
  induction a as [|ch a IH].
  - reflexivity.
  - change (S (String.length (a +:+ b)) = S (String.length a + String.length b)).
    now rewrite IH.
Qed.

Lemma append_cancel_r (a b s : string) : a +:+ s = b +:+ s -> a = b.
Proof.
  revert b. induction a as [|ch a IH]; intros [|ch' b] H.
  - reflexivity.
  - apply (f_equal String.length) in H. rewrite !append_length in H.
    simpl in H. lia.
  - apply (f_equal String.length) in H. rewrite !append_length in H.
    simpl in H. lia.
  - change (String ch (a +:+ s) = String ch' (b +:+ s)) in H.
    injection H as Hch Hrest. f_equal; [assumption | now apply IH].
Qed.

(** X13.  For one client, two prefixes with the same partition hostname,
    or with the same regional hostname, are the same prefix: distinct
    prefixes never collide. *)
Theorem hostname_prefix_injective {DefaultConfig IgnoreConfig IAM : Type}
    (client : AWSClient DefaultConfig IgnoreConfig IAM) (p q : string) :
  PartitionHostname client p = PartitionHostname client q
  \/ RegionalHostname client p = RegionalHostname client q ->
  p = q.
Proof.
  rewrite !PartitionHostname_spec, !RegionalHostname_spec.
  intros [H | H]; now apply append_cancel_r in H.
Qed.

(** ** Further runs in the example environment *)

Example Client_sdkNoAccount_trace :
  map kindOf (trace (Client Example.sdkNoAccount Example.goodConfig))
  = [ KValidateRegion; KGetSession; KLogPrintf; KValidateAccountID;
      KPartitionForRegion; KIamNew ].
Proof. reflexivity. Qed.

Example GetSupportedEC2Platforms_duplicate :
  GetSupportedEC2Platforms Example.duplicateConn = Returns (["VPC"], None).
Proof. reflexivity. Qed.

(** X1 at a response with two platforms. *)
Lemma GetSupportedEC2Platforms_platforms_or_error_example :
  GetSupportedEC2Platforms Example.platformsConn = Returns (["EC2"; "VPC"], None)
  /\ ((["EC2"; "VPC"] <> [] /\ @None error = None)
      \/ (["EC2"; "VPC"] = [] /\ is_Some (@None error))).
Proof.
  split; [reflexivity|].
  apply (GetSupportedEC2Platforms_platforms_or_error Example.platformsConn).
  reflexivity.
Defined.

(** X2 at a failed request and at a response without nil pointers. *)
Lemma GetSupportedEC2Platforms_returns_example :
  (exists r, GetSupportedEC2Platforms Example.failingConn = Returns r)
  /\ (exists r, GetSupportedEC2Platforms Example.platformsConn = Returns r).
Proof.
  split.
  - apply GetSupportedEC2Platforms_returns. left. simpl. eauto.
  - apply GetSupportedEC2Platforms_returns. right. eexists. split; reflexivity.
Defined.

(** X3 at a response that names the platforms twice, with nil pointers
    around the first. *)
Lemma GetSupportedEC2Platforms_first_match_example :
  GetSupportedEC2Platforms Example.duplicateConn = Returns (["VPC"], None).
Proof.
  apply (GetSupportedEC2Platforms_first_match Example.duplicateConn
           [Some (ec2.mkAccountAttribute (Some "max-instances") [None])]
           [None;
            Some (ec2.mkAccountAttribute (Some "supported-platforms")
                    [platformValue "EC2"])]
           (ec2.mkAccountAttribute (Some "supported-platforms")
              [platformValue "VPC"])
           "VPC" []); reflexivity.
Defined.

(** X4 at a response whose first [supported-platforms] attribute is
    empty, and at one without that attribute. *)
Lemma GetSupportedEC2Platforms_none_detected_example :
  GetSupportedEC2Platforms Example.emptyFirstConn
    = Returns ([], Some noPlatformsDetected)
  /\ GetSupportedEC2Platforms Example.noPlatformsConn
     = Returns ([], Some noPlatformsDetected).
Proof.
  split.
  - apply (GetSupportedEC2Platforms_none_detected Example.emptyFirstConn []
             [Some (ec2.mkAccountAttribute (Some "supported-platforms") []);
              Some (ec2.mkAccountAttribute (Some "supported-platforms")
                      [platformValue "EC2"])]);
      [reflexivity | reflexivity | right; eexists; reflexivity].
  - apply (GetSupportedEC2Platforms_none_detected Example.noPlatformsConn
             [Some (ec2.mkAccountAttribute (Some "default-vpc")
                      [Some (ec2.mkAccountAttributeValue (Some "vpc-1"))])]
             []);
      [reflexivity | reflexivity | left; reflexivity].
Defined.

(** X5 at [goodConfig] with both switches set and further endpoints. *)
Lemma Client_unaffected_by_global_service_fields_example :
  Client Example.sdk
    (withGlobalServiceFields Example.goodConfig true true
       {[ "iam" := "https://iam.example.test";
          "s3" := "https://s3.example.test";
          "route53" := "https://route53.example.test" ]})
  = Client Example.sdk Example.goodConfig.
Proof.
  apply Client_unaffected_by_global_service_fields; vm_compute; reflexivity.
Defined.

(** X6 at [goodConfig]. *)
Lemma Client_skipping_accepted_region_example :
  Client Example.sdk (withSkipRegionValidation Example.goodConfig false)
  = (result (Client Example.sdk (withSkipRegionValidation Example.goodConfig true)),
     ValidateRegionCall "us-west-2"
       :: trace (Client Example.sdk
                   (withSkipRegionValidation Example.goodConfig true))).
Proof.
  apply (Client_skipping_accepted_region Example.sdk Example.goodConfig).
  reflexivity.
Defined.

(** X7 at [goodConfig], which succeeds, and at [forbiddenConfig], which
    fails. *)
Lemma Client_builds_iam_connection_iff_success_example :
  (exists p cfgs,
     In (IamNewCall p cfgs) (trace (Client Example.sdk Example.goodConfig)))
  /\ ((exists p cfgs,
         In (IamNewCall p cfgs) (trace (Client Example.sdk Example.forbiddenConfig)))
      -> exists client,
           result (Client Example.sdk Example.forbiddenConfig) = (Some client, None)).
Proof.
  split.
  - apply (Client_builds_iam_connection_iff_success Example.sdk Example.goodConfig).
    exists Example.goodClient. reflexivity.
  - apply (Client_builds_iam_connection_iff_success Example.sdk Example.forbiddenConfig).
Defined.

(** X8 in the environment without account ID. *)
Lemma Client_warns_iff_account_ID_empty_example :
  In (LogPrintfCall accountIDWarning)
     (trace (Client Example.sdkNoAccount Example.goodConfig))
  /\ In (ValidateAccountIDCall "" [] [])
        (trace (Client Example.sdkNoAccount Example.goodConfig)).
Proof.
  destruct (Client_warns_iff_account_ID_empty Example.sdkNoAccount Example.goodConfig)
    as (_ & Hiff & Hvalidate).
  assert (H : In (LogPrintfCall accountIDWarning)
                 (trace (Client Example.sdkNoAccount Example.goodConfig))).
  { apply Hiff. split; [right; reflexivity|]. do 2 eexists. reflexivity. }
  split; [exact H | exact (Hvalidate H)].
Defined.

(** X9 at [goodConfig]. *)
Lemma Client_hands_on_tag_configurations_example :
  client_DefaultTagsConfig Example.goodClient = DefaultTagsConfig Example.goodConfig
  /\ client_IgnoreTagsConfig Example.goodClient = IgnoreTagsConfig Example.goodConfig.
Proof.
  apply (Client_hands_on_tag_configurations Example.sdk). reflexivity.
Defined.

(** X10 in the environment without account ID, where debug logging is
    on. *)
Lemma Client_awsbase_switches_and_user_agent_example :
  awsbase.DebugLogging (awsbaseConfig Example.sdkNoAccount Example.goodConfig) = true
  /\ map awsbase.Version
       (awsbase.UserAgentProducts (awsbaseConfig Example.sdkNoAccount Example.goodConfig))
     = ["1.0"; "1.0"; "0.14.7"].
Proof.
  assert (H : In (GetSessionCall (awsbaseConfig Example.sdkNoAccount Example.goodConfig))
                 (trace (Client Example.sdkNoAccount Example.goodConfig)))
    by (right; left; reflexivity).
  destruct (Client_awsbase_switches_and_user_agent
              Example.sdkNoAccount Example.goodConfig _ H)
    as (_ & _ & _ & _ & Hdebug & _ & _ & _ & Hversions).
  split; [exact Hdebug | exact Hversions].
Defined.

(** X11 at [forbiddenConfig]. *)
Lemma Client_validates_session_account_ID_example :
  ["123456789012"] = ForbiddenAccountIds Example.forbiddenConfig
  /\ exists sess part,
       Example.getSession (awsbaseConfig Example.sdk Example.forbiddenConfig)
       = (sess, "123456789012", part, None).
Proof.
  assert (H : In (ValidateAccountIDCall "123456789012" [] ["123456789012"])
                 (trace (Client Example.sdk Example.forbiddenConfig)))
    by (right; right; left; reflexivity).
  destruct (Client_validates_session_account_ID
              Example.sdk Example.forbiddenConfig _ _ _ H)
    as (_ & Hforbidden & Hsession).
  split; [exact Hforbidden | exact Hsession].
Defined.

(** X13 at the prefix [iam]. *)
Lemma hostname_prefix_injective_example :
  PartitionHostname Example.goodClient "iam" = PartitionHostname Example.goodClient "iam"
  /\ "iam" = "iam".
Proof.
  split; [reflexivity|].
  apply (hostname_prefix_injective Example.goodClient). left. reflexivity.
Defined.

(** X14 at [chinaConfig]. *)
Lemma Client_hostnames_example :
  exists client,
    result (Client Example.sdk Example.chinaConfig) = (Some client, None)
    /\ PartitionHostname client "iam" = "iam.amazonaws.com.cn"
    /\ RegionalHostname client "iam" = "iam.cn-north-1.amazonaws.com.cn".
Proof.
  eexists. split; [reflexivity|].
  apply (Client_hostnames Example.sdk Example.chinaConfig _ "iam"). reflexivity.
Defined.
